(** * Employee wellness survey: the questionnaire wizard and the reply parser

    A shallow embedding of [app.py] (the second copy of the script differs
    in comments only).  Three parts are modelled:

    - the text primitives of Python's [str] that the reply parser uses, and
      the parser itself (the body of the [if result and ...] branch of
      [get_gemini_recommendations]);
    - [get_gemini_recommendations] with its [try]/[except] ladder, over an
      explicit outcome of the one HTTP call it makes;
    - the Streamlit script as a function from the widget values of one run
      to a change of [st.session_state], with [st.rerun()] as an outcome. *)

From Stdlib Require Import List String Ascii ZArith NArith Bool Lia.
From Stdlib Require Import Numbers.DecimalString.
Import ListNotations.

Set Implicit Arguments.
Set Warnings "-register-all".

(** ** Python text *)

(** A Python [str] is a sequence of Unicode code points.  Literals of the
    program are written as Rocq strings and read by [py]; all of them are
    ASCII, so that a byte is its own code point. *)
Definition char := N.
Definition str := list char.

Definition py (s : string) : str :=
  map N_of_ascii (list_ascii_of_string s).

Definition char_newline : char := 10%N.
Definition char_hyphen : char := 45%N.
Definition char_star : char := 42%N.

(** [str.isspace] for one code point: the characters [str.strip()]
    removes when it is called without an argument. *)
Definition isspace (c : char) : bool :=
  ((9 <=? c) && (c <=? 13)
   || (28 <=? c) && (c <=? 32)
   || (c =? 133) || (c =? 160) || (c =? 5760)
   || (8192 <=? c) && (c <=? 8202)
   || (c =? 8232) || (c =? 8233) || (c =? 8239) || (c =? 8287)
   || (c =? 12288))%N.

Fixpoint lstrip (s : str) : str :=
  match s with
  | c :: r => if isspace c then lstrip r else s
  | [] => []
  end.

Definition rstrip (s : str) : str := rev (lstrip (rev s)).

(** [s.strip()] *)
Definition strip (s : str) : str := lstrip (rstrip s).

(** [s.startswith(prefix)] *)
Fixpoint startswith (prefix s : str) : bool :=
  match prefix, s with
  | [], _ => true
  | p :: prefix', c :: s' => (p =? c)%N && startswith prefix' s'
  | _ :: _, [] => false
  end.

(** [s.split(sep)] for a one-character separator: never the empty list,
    and the empty text gives one empty field. *)
Fixpoint split (sep : char) (s : str) : list str :=
  match s with
  | [] => [[]]
  | c :: r =>
      if (c =? sep)%N then [] :: split sep r
      else match split sep r with
           | field :: fields => (c :: field) :: fields
           | [] => [[c]]
           end
  end.

(** [sep.join(fields)] for a one-character separator. *)
Fixpoint join (sep : char) (fields : list str) : str :=
  match fields with
  | [] => []
  | [field] => field
  | field :: rest => field ++ sep :: join sep rest
  end.

(** [s.replace('**', '')]: the occurrences are found from the left and do
    not overlap. *)
Fixpoint remove_bold (s : str) : str :=
  match s with
  | a :: (b :: r) as t =>
      if (a =? char_star)%N && (b =? char_star)%N then remove_bold r
      else a :: remove_bold t
  | _ => s
  end.

(** ['**' in s] *)
Fixpoint has_bold (s : str) : bool :=
  match s with
  | a :: (b :: _) as t =>
      (a =? char_star)%N && (b =? char_star)%N || has_bold t
  | _ => false
  end.

(** Truth value of a [str] and of a [list]: empty is false. *)
Definition nonempty {A : Type} (l : list A) : bool :=
  match l with [] => false | _ :: _ => true end.

(** ** The reply parser *)

Definition summary_marker : str := py "Summary:".
Definition no_summary_placeholder : str :=
  py "No distinct summary provided by AI.".

(** The three locals the loop over the lines updates. *)
Record parse_state : Type := ParseState {
  ps_recommendations : list str;
  ps_summary : str;
  ps_summary_found : bool
}.

Definition parse_start : parse_state := ParseState [] [] false.

(** One iteration of [for line in lines]. *)
Definition parse_line (st : parse_state) (line : str) : parse_state :=
  let stripped_line := strip line in
  if startswith summary_marker stripped_line then
    ParseState (ps_recommendations st)
               (strip (skipn (List.length summary_marker) stripped_line))
               true
  else if startswith [char_hyphen] stripped_line
          && negb (ps_summary_found st) then
    ParseState (ps_recommendations st ++ [remove_bold stripped_line])
               (ps_summary st) (ps_summary_found st)
  else if negb (ps_summary_found st) && nonempty stripped_line then
    ParseState (ps_recommendations st ++ [remove_bold stripped_line])
               (ps_summary st) (ps_summary_found st)
  else st.

Definition parse_lines (st : parse_state) (lines : list str) : parse_state :=
  fold_left parse_line lines st.

(** From [lines = generated_text.split('\n')] to [return recommendations,
    summary]. *)
Definition parse_reply (generated_text : str) : list str * str :=
  let st := parse_lines parse_start (split char_newline generated_text) in
  if negb (nonempty (ps_recommendations st)) && negb (nonempty (ps_summary st))
  then ([remove_bold (strip generated_text)], no_summary_placeholder)
  else (ps_recommendations st, ps_summary st).

(** A line whose stripped form starts with the marker. *)
Definition is_summary_line (line : str) : bool :=
  startswith summary_marker (strip line).

(** The reply made of the given lines. *)
Definition reply_of_lines (lines : list str) : str := join char_newline lines.

(** ** Exceptions and results *)

(** The exception classes the program meets.  [RequestException] stands
    for the class and its subclasses ([ConnectionError], [Timeout],
    [HTTPError], and the decode error of [requests], which is one too);
    [JSONDecodeError] is [json.JSONDecodeError] alone.  The argument is
    the text [str(e)] gives. *)
Inductive exn : Type :=
| RequestException (msg : str)
| JSONDecodeError (msg : str)
| KeyError (msg : str)
| IndexError (msg : str)
| TypeError (msg : str)
| AttributeError (msg : str)
| OtherException (msg : str).

Definition exn_str (e : exn) : str :=
  match e with
  | RequestException msg | JSONDecodeError msg | KeyError msg
  | IndexError msg | TypeError msg | AttributeError msg
  | OtherException msg => msg
  end.

(** What evaluating a Python expression gives: a value or a raised
    exception. *)
Inductive result (A : Type) : Type :=
| Return (a : A)
| Raise (e : exn).
Arguments Raise {A} e.

Definition bind {A B : Type} (r : result A) (k : A -> result B) : result B :=
  match r with
  | Return a => k a
  | Raise e => Raise e
  end.

Declare Scope py_scope.
Delimit Scope py_scope with py.
Notation "x <- r ;; k" := (bind r (fun x => k))
  (at level 61, r at next level, right associativity) : py_scope.

(** ** Decoded JSON *)

(** The value [response.json()] returns.  An object is the list of the
    items of the decoded [dict].  A number is kept as an integer: the
    program reads no number, only its truth value. *)
Inductive json : Type :=
| JNull
| JBool (b : bool)
| JNumber (z : Z)
| JString (s : str)
| JArray (items : list json)
| JObject (items : list (str * json)).

Fixpoint str_eqb (a b : str) : bool :=
  match a, b with
  | [], [] => true
  | x :: a', y :: b' => (x =? y)%N && str_eqb a' b'
  | _, _ => false
  end.

Fixpoint lookup {V : Type} (key : str) (items : list (str * V)) : option V :=
  match items with
  | [] => None
  | (k, v) :: rest => if str_eqb k key then Some v else lookup key rest
  end.

(** [bool(v)] *)
Definition truth (v : json) : bool :=
  match v with
  | JNull => false
  | JBool b => b
  | JNumber z => negb (z =? 0)%Z
  | JString s => nonempty s
  | JArray items => nonempty items
  | JObject items => nonempty items
  end.

Definition type_name (v : json) : str :=
  match v with
  | JNull => py "NoneType"
  | JBool _ => py "bool"
  | JNumber _ => py "int"
  | JString _ => py "str"
  | JArray _ => py "list"
  | JObject _ => py "dict"
  end.

Definition quoted (s : str) : str := py "'" ++ s ++ py "'".

Definition decimal (z : Z) : str := py (NilZero.string_of_int (Z.to_int z)).

(** [v.get(key)]: only a dict has the method. *)
Definition method_get (v : json) (key : str) : result json :=
  match v with
  | JObject items =>
      Return (match lookup key items with Some x => x | None => JNull end)
  | _ => Raise (AttributeError
                  (quoted (type_name v) ++ py " object has no attribute 'get'"))
  end.

(** [len(v)] *)
Definition py_len (v : json) : result Z :=
  match v with
  | JString s => Return (Z.of_nat (List.length s))
  | JArray items => Return (Z.of_nat (List.length items))
  | JObject items => Return (Z.of_nat (List.length items))
  | _ => Raise (TypeError
                  (py "object of type " ++ quoted (type_name v)
                   ++ py " has no len()"))
  end.

(** [l[i]] on a Python sequence: a negative index counts from the end. *)
Definition py_index {A : Type} (l : list A) (i : Z) : option A :=
  let n := Z.of_nat (List.length l) in
  if (0 <=? i)%Z then nth_error l (Z.to_nat i)
  else if (0 <=? n + i)%Z then nth_error l (Z.to_nat (n + i))
  else None.

Definition not_subscriptable (v : json) : exn :=
  TypeError (quoted (type_name v) ++ py " object is not subscriptable").

(** [v[key]] with a string key. *)
Definition getitem_str (v : json) (key : str) : result json :=
  match v with
  | JObject items =>
      match lookup key items with
      | Some x => Return x
      | None => Raise (KeyError (quoted key))
      end
  | JArray _ =>
      Raise (TypeError (py "list indices must be integers or slices, not str"))
  | JString _ =>
      Raise (TypeError (py "string indices must be integers, not 'str'"))
  | _ => Raise (not_subscriptable v)
  end.

(** [v[i]] with an integer index.  The keys of a decoded object are
    strings, so that an integer is never one of them. *)
Definition getitem_int (v : json) (i : Z) : result json :=
  match v with
  | JArray items =>
      match py_index items i with
      | Some x => Return x
      | None => Raise (IndexError (py "list index out of range"))
      end
  | JString s =>
      match py_index s i with
      | Some c => Return (JString [c])
      | None => Raise (IndexError (py "string index out of range"))
      end
  | JObject _ => Raise (KeyError (decimal i))
  | _ => Raise (not_subscriptable v)
  end.

(** The receiver of [generated_text.split('\n')] has to be a [str]. *)
Definition as_text (v : json) : result str :=
  match v with
  | JString s => Return s
  | _ => Raise (AttributeError
                  (quoted (type_name v)
                   ++ py " object has no attribute 'split'"))
  end.

(** ** The call to the text-generation endpoint *)

Definition GEMINI_API_URL : str :=
  py "https://generativelanguage.googleapis.com/v1beta/models/gemini-2.0-flash:generateContent".

(** A Python [dict] from question to rating, in insertion order. *)
Definition dict := list (str * Z).

(** [d.get(key, default)] *)
Definition dict_get (d : dict) (key : str) (default : Z) : Z :=
  match lookup key d with
  | Some v => v
  | None => default
  end.

(** [d[key] = v]: an existing key keeps its place, a new one goes last. *)
Fixpoint dict_set (d : dict) (key : str) (v : Z) : dict :=
  match d with
  | [] => [(key, v)]
  | (k, x) :: rest =>
      if str_eqb k key then (k, v) :: rest else (k, x) :: dict_set rest key v
  end.

Definition keys (d : dict) : list str := map fst d.

Definition char_quote : char := 34%N.

(** The three pieces of [prompt_text]. *)
Definition prompt_head (department : str) : str :=
  join char_newline
    [ [];
      py "    An employee from the " ++ department
        ++ py " department has provided feedback on their wellness and satisfaction.";
      py "    Their ratings (1=Strongly Disagree, 5=Strongly Agree) are as follows:";
      [];
      py "    " ].

Definition prompt_rating (item : str * Z) : str :=
  py "- **" ++ fst item ++ py "**: " ++ decimal (snd item)
    ++ py "/5" ++ [char_newline].

Definition prompt_tail (department : str) : str :=
  join char_newline
    [ [];
      [];
      py "    Based on these ratings, please provide specific, actionable recommendations in bullet points";
      py "    to help retain this employee and improve their well-being within the "
        ++ department ++ py " department.";
      py "    Focus on areas where ratings are lower (e.g., 1, 2, 3) but also acknowledge strengths.";
      py "    It is crucial that you include a concise summary at the end of the bullet points.";
      py "    The total output (bullet points and summary combined) should be between 100 and 130 words.";
      py "    Format the recommendations strictly as a bulleted list using hyphens.";
      py "    Start the summary with " ++ [char_quote] ++ py "Summary:"
        ++ [char_quote] ++ py ".";
      py "    " ].

Definition build_prompt (department : str) (ratings : dict) : str :=
  prompt_head department
    ++ List.concat (map prompt_rating ratings)
    ++ prompt_tail department.

(** What [requests.post] is given: the URL, the [key] parameter and the
    text of the one part of the payload. *)
Record request : Type := Request {
  request_url : str;
  request_key : str;
  request_text : str
}.

(** What [requests.post] gives back.  [http_error_text] is the text of the
    [HTTPError] that [raise_for_status] raises for this response, and
    [json_result] is what [response.json()] returns or raises. *)
Record response : Type := Response {
  status_code : Z;
  http_error_text : str;
  json_result : result json
}.

(** The network: the outcome of the POST for each request. *)
Definition network := request -> result response.

(** [response.raise_for_status()]: an [HTTPError] for 4xx and 5xx. *)
Definition raise_for_status (r : response) : result unit :=
  if ((400 <=? status_code r) && (status_code r <? 600))%Z
  then Raise (RequestException (http_error_text r))
  else Return tt.

Definition no_candidates_message : str :=
  py "Error: No recommendations could be generated by the AI. The response structure was unexpected.".

Open Scope py_scope.

(** [result and result.get("candidates") and len(result["candidates"]) > 0] *)
Definition has_candidates (decoded : json) : result bool :=
  if truth decoded then
    found <- method_get decoded (py "candidates") ;;
    if truth found then
      candidates <- getitem_str decoded (py "candidates") ;;
      n <- py_len candidates ;;
      Return (0 <? n)%Z
    else Return false
  else Return false.

(** The statements of the [try] block after [result = response.json()]. *)
Definition read_reply (decoded : json) : result (list str * str) :=
  ok <- has_candidates decoded ;;
  if ok then
    candidates <- getitem_str decoded (py "candidates") ;;
    candidate <- getitem_int candidates 0 ;;
    content <- getitem_str candidate (py "content") ;;
    parts <- getitem_str content (py "parts") ;;
    part <- getitem_int parts 0 ;;
    text <- getitem_str part (py "text") ;;
    generated_text <- as_text text ;;
    Return (parse_reply generated_text)
  else Return ([no_candidates_message], []).

Definition try_block (post : network) (api_key prompt_text : str)
  : result (list str * str) :=
  response <- post (Request GEMINI_API_URL api_key prompt_text) ;;
  _ <- raise_for_status response ;;
  decoded <- json_result response ;;
  read_reply decoded.

(** The three [except] clauses, in their order. *)
Definition except_clauses (e : exn) : list str * str :=
  match e with
  | RequestException _ =>
      ([py "Error connecting to AI service: " ++ exn_str e
        ++ py ". Please check your API key and network connection."], [])
  | JSONDecodeError _ =>
      ([py "Error: Could not parse AI response. The response was not valid JSON."],
       [])
  | _ => ([py "An unexpected error occurred: " ++ exn_str e], [])
  end.

Definition get_gemini_recommendations
  (post : network) (GEMINI_API_KEY : str) (department : str) (ratings : dict)
  : result (list str * str) :=
  let prompt_text := build_prompt department ratings in
  match try_block post GEMINI_API_KEY prompt_text with
  | Return r => Return r
  | Raise e => Return (except_clauses e)
  end.

Close Scope py_scope.

(** ** The question bank *)

Definition questions : list (str * list str) :=
  [
    (py "Sales",
     [ py "How clear and communicated are the overall company sales goals?";
       py "How satisfied are you with the lead generation process and quality?";
       py "How effective is the sales training and onboarding you received?";
       py "Do you feel empowered to make decisions that benefit your sales efforts?";
       py "How would you rate the tools and technologies provided for sales activities (e.g., CRM)?";
       py "How often do you receive constructive feedback on your sales performance?";
       py "How well do you feel your work-life balance is in this sales role?";
       py "Do you believe there are sufficient opportunities for advancement within the sales team?";
       py "How valued do you feel your contributions are to the overall success of the company?";
       py "How open is the communication between the sales team and other departments?" ]);
    (py "Marketing",
     [ py "How aligned do you feel your individual goals are with the overall marketing strategy?";
       py "How effective do you believe the processes are for campaign development and execution?";
       py "How satisfied are you with the level of collaboration within the marketing team?";
       py "Do you feel you have the autonomy to explore innovative marketing approaches?";
       py "How would you rate the resources available for professional development in marketing?";
       py "How clear is the feedback process on your marketing initiatives and performance?";
       py "How manageable do you find your workload in your current marketing role?";
       py "Do you see clear pathways for career progression within the marketing department?";
       py "How recognized do you feel for your creative contributions and marketing successes?";
       py "How well do you understand the impact of your marketing work on the company's bottom line?" ]);
    (py "Engineering",
     [ py "How well-defined are the project requirements and specifications you work on?";
       py "How effective do you believe the code review processes are within your team?";
       py "How satisfied are you with the opportunities to work with new technologies?";
       py "Do you feel your input is valued in technical decision-making processes?";
       py "How would you rate the quality of the tools and software you use for development?";
       py "How often do you receive feedback on your technical skills and contributions?";
       py "How sustainable do you find the pace and workload of your engineering projects?";
       py "Are you aware of opportunities for specialization or leadership within the engineering organization?";
       py "How much do you feel your technical expertise contributes to the company's innovation?";
       py "How effective is the communication between engineering teams and other departments (e.g., product)?" ]);
    (py "Human Resources",
     [ py "How effectively do you believe the company's values are reflected in HR practices?";
       py "How satisfied are you with the tools and systems used for HR management?";
       py "How well do you feel employee grievances and concerns are addressed?";
       py "Do you believe the performance evaluation process is fair and constructive?";
       py "How would you rate the support provided by HR leadership and management?";
       py "How clear is the communication regarding changes in company policies and procedures?";
       py "How manageable do you find the workload associated with your HR responsibilities?";
       py "Do you see opportunities for growth and specialization within the HR function?";
       py "How valued do you feel your role is in supporting the overall employee experience?";
       py "How effective is the collaboration between different teams within the HR department?" ]);
    (py "Finance",
     [ py "How clear and consistent are the financial reporting deadlines and expectations?";
       py "How satisfied are you with the opportunities to develop your financial analysis skills?";
       py "How effective do you believe the internal controls are within the finance department?";
       py "Do you feel you have sufficient access to the data and information needed for your work?";
       py "How would you rate the quality of the financial software and systems you use?";
       py "How often do you receive feedback on the accuracy and efficiency of your work?";
       py "How demanding do you find the workload during peak financial periods?";
       py "Are you aware of opportunities for advancement or specialization within the finance team?";
       py "How much do you feel your financial insights contribute to the company's strategic decisions?";
       py "How effective is the communication between the finance department and other departments?" ])
  ].

Definition please_select : str := py "Please Select".

Definition departments : list str :=
  [ please_select; py "Sales"; py "Marketing"; py "Engineering";
    py "Human Resources"; py "Finance" ].

(** ** Session state *)

(** The keys of [st.session_state] the script keeps.  The block of
    [if '...' not in st.session_state] gives them the values of
    [fresh_session] in the first run of a session. *)
Record session : Type := Session {
  ratings : dict;
  submitted : bool;
  last_submitted_department : option str;
  last_submitted_ratings : dict;
  recommendations : list str;
  summary : str;
  current_question_index : Z;
  active_department : str
}.

Definition fresh_session : session :=
  Session [] false None [] [] [] 0 please_select.

Definition set_ratings (v : dict) (s : session) : session :=
  Session v (submitted s) (last_submitted_department s)
    (last_submitted_ratings s) (recommendations s) (summary s)
    (current_question_index s) (active_department s).

Definition set_submitted (v : bool) (s : session) : session :=
  Session (ratings s) v (last_submitted_department s)
    (last_submitted_ratings s) (recommendations s) (summary s)
    (current_question_index s) (active_department s).

Definition set_last_submitted_department (v : option str) (s : session)
  : session :=
  Session (ratings s) (submitted s) v
    (last_submitted_ratings s) (recommendations s) (summary s)
    (current_question_index s) (active_department s).

Definition set_last_submitted_ratings (v : dict) (s : session) : session :=
  Session (ratings s) (submitted s) (last_submitted_department s)
    v (recommendations s) (summary s)
    (current_question_index s) (active_department s).

Definition set_recommendations (v : list str) (s : session) : session :=
  Session (ratings s) (submitted s) (last_submitted_department s)
    (last_submitted_ratings s) v (summary s)
    (current_question_index s) (active_department s).

Definition set_summary (v : str) (s : session) : session :=
  Session (ratings s) (submitted s) (last_submitted_department s)
    (last_submitted_ratings s) (recommendations s) v
    (current_question_index s) (active_department s).

Definition set_current_question_index (v : Z) (s : session) : session :=
  Session (ratings s) (submitted s) (last_submitted_department s)
    (last_submitted_ratings s) (recommendations s) (summary s)
    v (active_department s).

Definition set_active_department (v : str) (s : session) : session :=
  Session (ratings s) (submitted s) (last_submitted_department s)
    (last_submitted_ratings s) (recommendations s) (summary s)
    (current_question_index s) v.

(** ** One run of the script *)

(** A run ends at the last line, at [st.rerun()], or at an exception
    nothing catches. *)
Inductive halt : Type :=
| Rerun
| Uncaught (e : exn).

Inductive progress (A : Type) : Type :=
| Go (a : A)
| Halt (h : halt).
Arguments Halt {A} h.

(** A piece of the script: it changes the session state and either goes
    on to the next statement or halts the run. *)
Definition Script (A : Type) : Type := session -> session * progress A.

Definition ret {A : Type} (a : A) : Script A := fun s => (s, Go a).

Definition script_bind {A B : Type} (c : Script A) (k : A -> Script B) : Script B :=
  fun s =>
    match c s with
    | (s', Go a) => k a s'
    | (s', Halt h) => (s', Halt h)
    end.

Definition state : Script session := fun s => (s, Go s).
Definition modify (f : session -> session) : Script unit :=
  fun s => (f s, Go tt).
Definition rerun {A : Type} : Script A := fun s => (s, Halt Rerun).
Definition eval {A : Type} (r : result A) : Script A :=
  fun s =>
    match r with
    | Return a => (s, Go a)
    | Raise e => (s, Halt (Uncaught e))
    end.
Definition when (b : bool) (c : Script unit) : Script unit :=
  if b then c else ret tt.

Declare Scope script_scope.
Delimit Scope script_scope with script.
Notation "x <- c ;; k" := (script_bind c (fun x => k))
  (at level 61, c at next level, right associativity) : script_scope.
Notation "c ;; k" := (script_bind c (fun _ => k))
  (at level 61, right associativity) : script_scope.

(** What the widgets hold in one run: the department the select box
    shows, the value the user gave the slider of the question on display
    ([None] while the slider is where its [value] argument put it), and
    the button whose click started the run. *)
Record widgets : Type := Widgets {
  selected_department : str;
  slider_moved : option Z;
  previous_clicked : bool;
  next_clicked : bool;
  submit_clicked : bool
}.

(** What the host supplies: the secrets and the network. *)
Record environment : Type := Environment {
  secrets : list (str * str);
  post : network
}.

(** [st.slider(label, lo, hi, value=value)]: the widget keeps the user
    within [lo..hi]; see [valid_widgets]. *)
Definition st_slider (lo hi value : Z) (moved : option Z) : Z :=
  match moved with
  | Some v => v
  | None => value
  end.

(** [d[key]] on a [dict] with string keys. *)
Definition dict_item {V : Type} (d : list (str * V)) (key : str) : result V :=
  match lookup key d with
  | Some v => Return v
  | None => Raise (KeyError (quoted key))
  end.

(** [l[i]] on a list. *)
Definition list_item {A : Type} (l : list A) (i : Z) : result A :=
  match py_index l i with
  | Some x => Return x
  | None => Raise (IndexError (py "list index out of range"))
  end.

Open Scope script_scope.

(** [if selected_department != st.session_state.active_department:] *)
Definition department_reset (selected : str) : Script unit :=
  s <- state ;;
  when (negb (str_eqb selected (active_department s)))
    (modify (set_active_department selected) ;;
     modify (set_current_question_index 0) ;;
     modify (set_ratings []) ;;
     modify (set_submitted false) ;;
     modify (set_recommendations []) ;;
     modify (set_summary []) ;;
     when (negb (str_eqb selected please_select)) rerun).

(** The buttons under the slider. *)
Definition navigation (w : widgets) (selected : str) (total_questions : Z)
  : Script unit :=
  s <- state ;;
  if (current_question_index s <? total_questions - 1)%Z then
    when (0 <? current_question_index s)%Z
      (when (previous_clicked w)
         (modify (fun s =>
                    set_current_question_index (current_question_index s - 1) s) ;;
          rerun)) ;;
    when (next_clicked w)
      (modify (fun s =>
                 set_current_question_index (current_question_index s + 1) s) ;;
       rerun)
  else
    when (submit_clicked w)
      (modify (set_submitted true) ;;
       modify (set_last_submitted_department (Some selected)) ;;
       modify (fun s => set_last_submitted_ratings (ratings s) s) ;;
       modify (set_recommendations []) ;;
       modify (set_summary []) ;;
       rerun).

(** [if selected_department and selected_department != "Please Select":] *)
Definition question_page (w : widgets) (selected : str) : Script unit :=
  when (nonempty selected && negb (str_eqb selected please_select))
    (department_questions <- eval (dict_item questions selected) ;;
     let total_questions := Z.of_nat (List.length department_questions) in
     s <- state ;;
     when (negb (submitted s))
       (when (total_questions <=? current_question_index s)%Z
          (modify (set_current_question_index (total_questions - 1)) ;;
           modify (set_submitted false)) ;;
        s <- state ;;
        current_question <-
          eval (list_item department_questions (current_question_index s)) ;;
        let current_rating_value := dict_get (ratings s) current_question 3 in
        let rating := st_slider 1 5 current_rating_value (slider_moved w) in
        modify (fun s => set_ratings (dict_set (ratings s) current_question rating) s) ;;
        navigation w selected total_questions)).

(** [if st.session_state.submitted and
    st.session_state.last_submitted_department:], where a department that
    is [None] or the empty text is false. *)
Definition results_page (env : environment) (GEMINI_API_KEY : str)
  : Script unit :=
  s <- state ;;
  match last_submitted_department s with
  | Some department =>
      when (submitted s && nonempty department)
        (when (negb (nonempty (recommendations s))
               && negb (nonempty (summary s)))
           (answer <- eval (get_gemini_recommendations (post env)
                              GEMINI_API_KEY department
                              (last_submitted_ratings s)) ;;
            modify (set_recommendations (fst answer)) ;;
            modify (set_summary (snd answer)) ;;
            rerun))
  | None => ret tt
  end.

(** The script, from [GEMINI_API_KEY = st.secrets["GEMINI_API_KEY"]] to its
    last line. *)
Definition script (env : environment) (w : widgets) : Script unit :=
  GEMINI_API_KEY <- eval (dict_item (secrets env) (py "GEMINI_API_KEY")) ;;
  department_reset (selected_department w) ;;
  question_page w (selected_department w) ;;
  results_page env GEMINI_API_KEY.

Close Scope script_scope.

(** ** One user action *)

(** The widgets of the run [st.rerun()] starts: the select box keeps its
    value, no button is down, and the slider on display is a new one. *)
Definition after_rerun (w : widgets) : widgets :=
  Widgets (selected_department w) None false false false.

Inductive settled : Type :=
| Shown
| Failed (e : exn)
| StillRunning.

(** A user action starts a run, and every [st.rerun()] another. *)
Fixpoint runs (fuel : nat) (env : environment) (w : widgets) (s : session)
  : session * settled :=
  match fuel with
  | O => (s, StillRunning)
  | S fuel' =>
      match script env w s with
      | (s', Go _) => (s', Shown)
      | (s', Halt Rerun) => runs fuel' env (after_rerun w) s'
      | (s', Halt (Uncaught e)) => (s', Failed e)
      end
  end.

Definition interact (env : environment) (w : widgets) (s : session)
  : session * settled :=
  runs 4 env w s.

(** What the widgets can hold. *)
Definition valid_widgets (w : widgets) : Prop :=
  In (selected_department w) departments
  /\ match slider_moved w with
     | Some v => (1 <= v <= 5)%Z
     | None => True
     end.

(** ** A session as a sequence of user actions *)

(** The question whose slider is on display once the session has settled
    in [s], if one is. *)
Definition question_shown (s : session) : option str :=
  if nonempty (active_department s)
     && negb (str_eqb (active_department s) please_select)
     && negb (submitted s)
  then match lookup (active_department s) questions with
       | Some department_questions =>
           let total_questions := Z.of_nat (List.length department_questions) in
           py_index department_questions
             (if (total_questions <=? current_question_index s)%Z
              then total_questions - 1 else current_question_index s)
       | None => None
       end
  else None.

(** The questions whose slider the user has moved since the department
    was chosen: a change of department forgets them, and a move of the
    slider adds the question on display. *)
Definition touch (w : widgets) (s : session) (touched : list str) : list str :=
  if negb (str_eqb (selected_department w) (active_department s)) then []
  else match slider_moved w, question_shown s with
       | Some _, Some q => q :: touched
       | _, _ => touched
       end.

(** The session after the given actions, with the questions touched; an
    action whose runs fail ends the replay. *)
Fixpoint replay (env : environment) (actions : list widgets)
                (s : session) (touched : list str)
  : session * list str * settled :=
  match actions with
  | [] => (s, touched, Shown)
  | w :: rest =>
      match interact env w s with
      | (s', Shown) => replay env rest s' (touch w s touched)
      | (s', stuck) => (s', touch w s touched, stuck)
      end
  end.

(** The actions of the user interface. *)
Definition choose (department : str) : widgets :=
  Widgets department None false false false.
Definition slide (department : str) (v : Z) : widgets :=
  Widgets department (Some v) false false false.
Definition click_previous (department : str) : widgets :=
  Widgets department None true false false.
Definition click_next (department : str) : widgets :=
  Widgets department None false true false.
Definition click_submit (department : str) : widgets :=
  Widgets department None false false true.

(** ** Statements about the reply parser *)

(** The lines after a summary line are ignored: the reply parses as it
    does without them. *)
Definition later_lines_ignored (before : list str) (summary_line : str)
                               (after : list str) : Prop :=
  parse_reply (reply_of_lines (before ++ summary_line :: after))
  = parse_reply (reply_of_lines (before ++ [summary_line])).

(** [summary = stripped_line[len("Summary:"):].strip()] *)
Definition summary_of (line : str) : str :=
  strip (skipn (List.length summary_marker) (strip line)).

(** The recommendations the loop collects from lines none of which is a
    summary line. *)
Definition collected (lines : list str) : list str :=
  map remove_bold (filter (@nonempty char) (map strip lines)).

(** ** Statements about the call *)

(** The request [get_gemini_recommendations] sends. *)
Definition request_for (GEMINI_API_KEY department : str) (ratings : dict)
  : request :=
  Request GEMINI_API_URL GEMINI_API_KEY (build_prompt department ratings).

(** The ways the call can fail: the POST raises, the status is an error
    status, the body is not JSON, the decoded body has no candidates, or
    reading it raises. *)
Inductive failure (post : network) (req : request) : Prop :=
| transport_failure (e : exn) :
    post req = Raise e -> failure post req
| error_status (r : response) :
    post req = Return r ->
    (400 <= status_code r < 600)%Z -> failure post req
| malformed_body (r : response) (e : exn) :
    post req = Return r ->
    json_result r = Raise e -> failure post req
| no_candidates (r : response) (decoded : json) :
    post req = Return r ->
    json_result r = Return decoded ->
    has_candidates decoded = Return false -> failure post req
| unexpected_reply (r : response) (decoded : json) (e : exn) :
    post req = Return r ->
    json_result r = Return decoded ->
    read_reply decoded = Raise e -> failure post req.

(** The path [candidates[0].content.parts[0].text] of a decoded body,
    when it is there and leads to a text. *)
Definition field (key : str) (v : json) : option json :=
  match v with
  | JObject items => lookup key items
  | _ => None
  end.

Definition first_element (v : json) : option json :=
  match v with
  | JArray (x :: _) => Some x
  | _ => None
  end.

Definition option_bind {A B : Type} (o : option A) (k : A -> option B)
  : option B :=
  match o with
  | Some a => k a
  | None => None
  end.

Definition candidate_text (decoded : json) : option str :=
  option_bind (field (py "candidates") decoded) (fun candidates =>
  option_bind (first_element candidates) (fun candidate =>
  option_bind (field (py "content") candidate) (fun content =>
  option_bind (field (py "parts") content) (fun parts =>
  option_bind (first_element parts) (fun part =>
  option_bind (field (py "text") part) (fun text =>
  match text with
  | JString generated_text => Some generated_text
  | _ => None
  end)))))).

(** What the guard of the [if] tests: the body is false as a truth value,
    or it is an object whose [candidates] entry is absent or false. *)
Definition lacks_candidates (decoded : json) : bool :=
  match decoded with
  | JObject items =>
      negb (nonempty items)
      || match lookup (py "candidates") items with
         | Some candidates => negb (truth candidates)
         | None => true
         end
  | _ => negb (truth decoded)
  end.

(** The exceptions that reading a decoded body raises. *)
Definition reading_error (e : exn) : bool :=
  match e with
  | KeyError _ | IndexError _ | TypeError _ | AttributeError _ => true
  | _ => false
  end.

(** A network that answers every request with the given decoded body. *)
Definition answering (decoded : json) : network :=
  fun _ => Return (Response 200 [] (Return decoded)).

(** A network out of reach. *)
Definition unreachable (reason : str) : network :=
  fun _ => Raise (RequestException reason).

(** ** Statements about the questionnaire *)

(** A host that holds the key and has no network. *)
Definition offline : environment :=
  Environment [(py "GEMINI_API_KEY", py "key")] (unreachable (py "offline")).

(** The session shows question [q], the one of index [i], of the
    department [d], whose questions are [qs]. *)
Record answering_at (s : session) (d : str) (qs : list str) (i : Z) (q : str)
  : Prop := AnsweringAt {
  at_department : active_department s = d;
  at_questions : lookup d questions = Some qs;
  at_open : submitted s = false;
  at_index : current_question_index s = i;
  at_question : py_index qs i = Some q;
  at_bounds : (0 <= i < Z.of_nat (List.length qs))%Z
}.

(** The session once the slider of question [q] has been read and its
    value stored. *)
Definition rated (w : widgets) (s : session) (q : str) : session :=
  set_ratings
    (dict_set (ratings s) q
       (st_slider 1 5 (dict_get (ratings s) q 3) (slider_moved w)))
    s.

(** The session the reset block leaves. *)
Definition reset_for (selected : str) (s : session) : session :=
  Session [] false (last_submitted_department s) (last_submitted_ratings s)
    [] [] 0 selected.

(** The session the Submit button leaves. *)
Definition submitted_for (selected : str) (s : session) : session :=
  set_summary []
    (set_recommendations []
       (set_last_submitted_ratings (ratings s)
          (set_last_submitted_department (Some selected)
             (set_submitted true s)))).

(** Every rating is on the scale. *)
Definition on_scale (r : dict) : Prop :=
  forall q v, lookup q r = Some v -> (1 <= v <= 5)%Z.

(** Every key is a question of the list. *)
Definition within (qs : list str) (r : dict) : Prop :=
  forall q, In q (keys r) -> In q qs.

(** Every question of the list is a key. *)
Definition covers (qs : list str) (r : dict) : Prop :=
  forall q, In q qs -> In q (keys r).

(** A question that was not touched has the default rating. *)
Definition default_unless (touched : list str) (r : dict) : Prop :=
  forall q v, lookup q r = Some v -> ~ In q touched -> v = 3%Z.

(** What holds of a session between two user actions: no department is
    chosen; or a question of the chosen department is on display, and
    the questions up to it are rated; or the ratings are submitted, and
    the copy taken is complete. *)
Inductive coherent (s : session) (touched : list str) : Prop :=
| coherent_idle :
    active_department s = please_select ->
    submitted s = false ->
    coherent s touched
| coherent_answering (qs : list str) (i : Z) (q : str) :
    answering_at s (active_department s) qs i q ->
    (forall j q', (0 <= j <= i)%Z -> py_index qs j = Some q' ->
                  In q' (keys (ratings s))) ->
    within qs (ratings s) ->
    on_scale (ratings s) ->
    default_unless touched (ratings s) ->
    coherent s touched
| coherent_submitted (qs : list str) :
    submitted s = true ->
    lookup (active_department s) questions = Some qs ->
    last_submitted_department s = Some (active_department s) ->
    nonempty (recommendations s) || nonempty (summary s) = true ->
    covers qs (last_submitted_ratings s) ->
    within qs (last_submitted_ratings s) ->
    on_scale (last_submitted_ratings s) ->
    default_unless touched (last_submitted_ratings s) ->
    coherent s touched.

(** Next, then Previous, shows the question the session started at. *)
Definition next_then_previous_returns
  (env : environment) (department : str) (s : session) : Prop :=
  current_question_index
    (fst (interact env (click_previous department)
            (fst (interact env (click_next department) s))))
  = current_question_index s.

(** The session after the department was chosen and Next was clicked the
    given number of times. *)
Definition session_at (department : str) (clicks : nat) : session :=
  fst (fst (replay offline
              (choose department :: repeat (click_next department) clicks)
              fresh_session [])).

(** A session of the Sales department: the first slider is moved to 5,
    Next is clicked through the nine questions after it, and the ratings
    are submitted. *)
Definition sales_actions : list widgets :=
  choose (py "Sales") :: slide (py "Sales") 5
    :: repeat (click_next (py "Sales")) 9 ++ [click_submit (py "Sales")].

Definition sales_outcome : session * list str * settled :=
  replay offline sales_actions fresh_session [].

(** A session whose ratings are submitted and answered. *)
Definition answered_session : session :=
  Session [(py "q", 4%Z)] true (Some (py "Sales")) [(py "q", 4%Z)]
    [py "- Keep it up"] (py "Fine.") 9 (py "Sales").

(** A host whose secrets hold no key. *)
Definition keyless : environment := Environment [] (unreachable (py "offline")).

(** The questionnaire can be used: once a department is chosen, the page
    is shown with a question on display. *)
Definition questionnaire_usable (env : environment) : Prop :=
  exists s,
    interact env (choose (py "Sales")) fresh_session = (s, Shown)
    /\ question_shown s <> None.

Definition sales_questions : list str :=
  match lookup (py "Sales") questions with
  | Some department_questions => department_questions
  | None => []
  end.

(** ** Statements about texts, the bank and the order of the ratings *)

(** The text ends with a character that is not a space, or is empty. *)
Definition ends_clean (s : str) : Prop :=
  match rev s with
  | c :: _ => isspace c = false
  | [] => True
  end.

(** Stripping the text again changes nothing. *)
Definition trimmed (s : str) : Prop := strip s = s.

(** No text occurs twice in the list. *)
Fixpoint distinct (l : list str) : bool :=
  match l with
  | [] => true
  | x :: rest => negb (existsb (str_eqb x) rest) && distinct rest
  end.

(** What holds of a session between two user actions, as to the order of
    the ratings: no department is chosen and no rating is held; or a
    question is on display, and the keys of the ratings are the first
    questions of the department, in their order, up to one past the
    question on display at least; or the ratings are submitted, the keys
    are the questions in their order, the copy taken is the ratings
    themselves, and the answer held is that of the call for this copy. *)
Inductive orderly (env : environment) (key : str) (s : session) : Prop :=
| orderly_idle :
    active_department s = please_select ->
    submitted s = false ->
    ratings s = [] ->
    orderly env key s
| orderly_answering (qs : list str) (k : nat) :
    lookup (active_department s) questions = Some qs ->
    submitted s = false ->
    (0 <= current_question_index s)%Z ->
    (Z.to_nat (current_question_index s) < k <= List.length qs)%nat ->
    keys (ratings s) = firstn k qs ->
    orderly env key s
| orderly_submitted (qs : list str) :
    lookup (active_department s) questions = Some qs ->
    submitted s = true ->
    current_question_index s = (Z.of_nat (List.length qs) - 1)%Z ->
    keys (ratings s) = qs ->
    last_submitted_ratings s = ratings s ->
    last_submitted_department s = Some (active_department s) ->
    get_gemini_recommendations (post env) key (active_department s)
      (last_submitted_ratings s)
    = Return (recommendations s, summary s) ->
    orderly env key s.
Arguments orderly_idle : clear implicits.
Arguments orderly_answering : clear implicits.
Arguments orderly_submitted : clear implicits.


(** A decoded body that holds the text path. *)
Definition sample_body : json :=
  JObject
    [(py "candidates",
      JArray
        [JObject
           [(py "content",
             JObject
               [(py "parts",
                 JArray [JObject [(py "text", JString (py "Summary: Rest."))]])])]])].

(** A network that answers with an error status, and one whose body is
    not JSON. *)
Definition overloaded : network :=
  fun _ => Return (Response 503 (py "503 Server Error") (Return JNull)).

Definition garbled : network :=
  fun _ => Return (Response 200 []
                     (Raise (JSONDecodeError (py "Expecting value")))).

(** * Properties *)

Unset Implicit Arguments.

(** ** The reply parser *)

Section Parser.

Lemma parse_lines_app (st : parse_state) (front back : list str) :
  parse_lines st (front ++ back) = parse_lines (parse_lines st front) back.
Proof. apply fold_left_app. Qed.

(** The first clause of the loop does not look at the flag. *)
Lemma parse_line_summary (st : parse_state) (line : str) :
  is_summary_line line = true ->
  parse_line st line
  = ParseState (ps_recommendations st) (summary_of line) true.
Proof.
  unfold parse_line, is_summary_line, summary_of.
  intros ->. reflexivity.
Qed.

(** Once the flag is set, the two other clauses are closed. *)
Lemma parse_line_closed (st : parse_state) (line : str) :
  ps_summary_found st = true ->
  is_summary_line line = false ->
  parse_line st line = st.
Proof.
  unfold parse_line, is_summary_line.
  intros Hfound ->. rewrite Hfound. cbn [negb].
  rewrite andb_false_r. reflexivity.
Qed.

(** While the flag is unset, a bullet and any other non-empty line are
    treated alike. *)
Lemma parse_line_open (st : parse_state) (line : str) :
  ps_summary_found st = false ->
  is_summary_line line = false ->
  parse_line st line
  = if nonempty (strip line)
    then ParseState (ps_recommendations st ++ [remove_bold (strip line)])
                    (ps_summary st) false
    else st.
Proof.
  unfold parse_line, is_summary_line.
  intros Hfound ->. rewrite Hfound. cbn [negb].
  rewrite andb_true_r, andb_true_l.
  destruct (strip line) as [|c rest]; [reflexivity|].
  cbn [nonempty]. destruct (startswith [char_hyphen] (c :: rest)); reflexivity.
Qed.

Lemma last_cons_default {A : Type} (a d : A) (l : list A) :
  last (a :: l) d = last l a.
Proof.
  revert a d. induction l as [|b l IH]; intros a d; [reflexivity|].
  change (last (a :: b :: l) d) with (last (b :: l) d).
  rewrite !IH. reflexivity.
Qed.

(** After a summary line the loop keeps its recommendations, and the
    summary is that of the last summary line met. *)
Lemma parse_lines_closed (lines : list str) (st : parse_state) :
  ps_summary_found st = true ->
  parse_lines st lines
  = ParseState (ps_recommendations st)
      (last (map summary_of (filter is_summary_line lines)) (ps_summary st))
      true.
Proof.
  revert st. induction lines as [|line lines IH]; intros st Hfound.
  - destruct st; cbn in *; subst; reflexivity.
  - cbn [parse_lines fold_left filter]. fold (parse_lines (parse_line st line) lines).
    destruct (is_summary_line line) eqn:Hline.
    + rewrite (@parse_line_summary st line Hline), IH by reflexivity.
      cbn [ps_recommendations ps_summary map].
      rewrite last_cons_default. reflexivity.
    + rewrite (@parse_line_closed st line Hfound Hline). apply IH, Hfound.
Qed.

(** Without a summary line the loop collects every non-blank line. *)
Lemma parse_lines_open (lines : list str) (st : parse_state) :
  ps_summary_found st = false ->
  forallb (fun line => negb (is_summary_line line)) lines = true ->
  parse_lines st lines
  = ParseState (ps_recommendations st ++ collected lines) (ps_summary st) false.
Proof.
  revert st. induction lines as [|line lines IH]; intros st Hfound Hnone.
  - unfold collected. cbn. rewrite app_nil_r. destruct st; cbn in *; subst.
    reflexivity.
  - cbn [forallb] in Hnone. apply andb_prop in Hnone as [Hline Hnone].
    apply negb_true_iff in Hline.
    cbn [parse_lines fold_left]. fold (parse_lines (parse_line st line) lines).
    rewrite (@parse_line_open st line Hfound Hline).
    unfold collected. cbn [map filter].
    destruct (nonempty (strip line)).
    + rewrite IH by (cbn; auto). cbn [ps_recommendations ps_summary map].
      rewrite <- app_assoc. reflexivity.
    + rewrite IH by auto. reflexivity.
Qed.

(** Induction on a text two characters at a time, as [replace] reads it. *)
Lemma str_pair_ind (P : str -> Prop) :
  P [] ->
  (forall a, P [a]) ->
  (forall a b r, P r -> P (b :: r) -> P (a :: b :: r)) ->
  forall s, P s.
Proof.
  intros Hnil Hone Hstep s.
  assert (H : P s /\ forall a, P (a :: s)); [|apply H].
  induction s as [|b r [IHr IHbr]]; split; auto.
Qed.

Lemma remove_bold_head (b : char) (r : str) :
  (b =? char_star)%N = false ->
  exists t, remove_bold (b :: r) = b :: t.
Proof.
  intros Hb. destruct r as [|c r]; [exists []; reflexivity|].
  cbn [remove_bold]. rewrite Hb. cbn [andb]. eexists. reflexivity.
Qed.

Lemma remove_bold_step (a b : char) (r : str) :
  remove_bold (a :: b :: r)
  = if (a =? char_star)%N && (b =? char_star)%N then remove_bold r
    else a :: remove_bold (b :: r).
Proof. reflexivity. Qed.

Lemma has_bold_step (a b : char) (r : str) :
  has_bold (a :: b :: r)
  = (a =? char_star)%N && (b =? char_star)%N || has_bold (b :: r).
Proof. reflexivity. Qed.

(** What [replace('**', '')] returns holds no ['**']. *)
Lemma remove_bold_clean (s : str) : has_bold (remove_bold s) = false.
Proof.
  induction s as [|a|a b r IHr IHbr] using str_pair_ind; try reflexivity.
  rewrite remove_bold_step.
  destruct ((a =? char_star)%N && (b =? char_star)%N) eqn:Hpair; [exact IHr|].
  destruct (b =? char_star)%N eqn:Hb.
  - rewrite andb_true_r in Hpair.
    destruct (remove_bold (b :: r)) as [|c t]; [reflexivity|].
    rewrite has_bold_step, Hpair, IHbr. reflexivity.
  - destruct (@remove_bold_head b r Hb) as [t Ht]. rewrite Ht in *.
    rewrite has_bold_step, Hb, andb_false_r, IHbr. reflexivity.
Qed.

Lemma parse_line_clean (st : parse_state) (line : str) :
  Forall (fun r => has_bold r = false) (ps_recommendations st) ->
  Forall (fun r => has_bold r = false) (ps_recommendations (parse_line st line)).
Proof.
  intros Hst.
  assert (Hadd : Forall (fun r => has_bold r = false)
                   (ps_recommendations st ++ [remove_bold (strip line)])).
  { apply Forall_app. split; [exact Hst|].
    constructor; [apply remove_bold_clean|constructor]. }
  unfold parse_line.
  repeat match goal with |- context [if ?c then _ else _] => destruct c end;
    assumption.
Qed.

Lemma parse_lines_clean (lines : list str) (st : parse_state) :
  Forall (fun r => has_bold r = false) (ps_recommendations st) ->
  Forall (fun r => has_bold r = false)
         (ps_recommendations (parse_lines st lines)).
Proof.
  revert st. induction lines as [|line lines IH]; intros st Hst; [exact Hst|].
  apply IH, parse_line_clean, Hst.
Qed.

End Parser.

(** C1, counterexample.  A second summary line, after the first, is not
    ignored: it replaces the summary the first one recorded. *)
Lemma later_summary_line_replaces_summary :
  ~ later_lines_ignored [] (py "Summary: A") [py "Summary: B"].
Proof.
  unfold later_lines_ignored. vm_compute. discriminate.
Qed.

(** C1, as amended.  Once a line whose stripped form starts with
    [Summary:] has been seen, the loop appends no later line to the
    recommendations, and only a later line that starts with [Summary:]
    itself changes the recorded summary: the last such line gives it.  The
    parser returns these two values, unless both are empty, when the
    fallback returns the whole reply as the one recommendation. *)
Theorem summary_line_closes_recommendations
  (text : str) (before : list str) (summary_line : str) (after : list str) :
  split char_newline text = before ++ summary_line :: after ->
  is_summary_line summary_line = true ->
  parse_lines parse_start (split char_newline text)
  = ParseState
      (ps_recommendations (parse_lines parse_start before))
      (last (map summary_of (filter is_summary_line after))
            (summary_of summary_line))
      true
  /\ parse_reply text
     = (if negb (nonempty (ps_recommendations (parse_lines parse_start before)))
           && negb (nonempty (last (map summary_of
                                      (filter is_summary_line after))
                                   (summary_of summary_line)))
        then ([remove_bold (strip text)], no_summary_placeholder)
        else (ps_recommendations (parse_lines parse_start before),
              last (map summary_of (filter is_summary_line after))
                   (summary_of summary_line))).
Proof.
  intros Hsplit Hline.
  assert (Hloop :
    parse_lines parse_start (split char_newline text)
    = ParseState
        (ps_recommendations (parse_lines parse_start before))
        (last (map summary_of (filter is_summary_line after))
              (summary_of summary_line))
        true).
  { rewrite Hsplit, parse_lines_app.
    cbn [parse_lines fold_left].
    fold (parse_lines (parse_line (parse_lines parse_start before) summary_line)
                      after).
    rewrite (@parse_line_summary _ summary_line Hline).
    rewrite parse_lines_closed by reflexivity. reflexivity. }
  split; [exact Hloop|].
  unfold parse_reply. rewrite Hloop. reflexivity.
Qed.

Lemma summary_line_closes_recommendations_witness :
  parse_reply (reply_of_lines
                 [py "- A"; py "Summary: B"; py "- C"; py "Summary: D"])
  = ([py "- A"], py "D").
Proof.
  exact (proj2 (@summary_line_closes_recommendations
                  (reply_of_lines
                     [py "- A"; py "Summary: B"; py "- C"; py "Summary: D"])
                  [py "- A"] (py "Summary: B") [py "- C"; py "Summary: D"]
                  eq_refl eq_refl)).
Defined.

(** C4, counterexample.  The summary keeps its emphasis markers. *)
Lemma summary_keeps_bold_markers :
  has_bold (snd (parse_reply (py "Summary: **Do Z**"))) = true.
Proof. vm_compute. reflexivity. Qed.

(** C4, as amended.  For every reply text, no string of the returned
    recommendations holds the emphasis marker [**]; the summary is
    returned as the reply has it. *)
Theorem recommendations_hold_no_bold_marker (text : str) :
  Forall (fun recommendation => has_bold recommendation = false)
         (fst (parse_reply text)).
Proof.
  unfold parse_reply.
  destruct (negb _ && negb _); cbn [fst].
  - constructor; [apply remove_bold_clean|constructor].
  - apply parse_lines_clean. constructor.
Qed.

(** C5, counterexample.  The line is collected as a recommendation, so
    that the fallback with its placeholder summary is not taken. *)
Lemma plain_line_gets_no_placeholder :
  parse_reply (py "Everything is fine.")
  <> ([py "Everything is fine."], no_summary_placeholder).
Proof. vm_compute. discriminate. Qed.

(** C5, as amended.  For a reply text with no line starting with
    [Summary:] and with a line that is not blank, such as
    "Everything is fine.", the parser returns the stripped non-blank lines
    as the recommendations, for the example the list of the one line, and
    the empty summary. *)
Theorem reply_without_summary_line (text : str) :
  forallb (fun line => negb (is_summary_line line))
          (split char_newline text) = true ->
  nonempty (collected (split char_newline text)) = true ->
  parse_reply text = (collected (split char_newline text), []).
Proof.
  intros Hnone Hsome. unfold parse_reply.
  rewrite parse_lines_open by (reflexivity || exact Hnone).
  cbn [parse_start ps_recommendations ps_summary app].
  rewrite Hsome. reflexivity.
Qed.

Lemma reply_without_summary_line_witness :
  parse_reply (py "Everything is fine.") = ([py "Everything is fine."], []).
Proof.
  exact (@reply_without_summary_line (py "Everything is fine.")
           eq_refl eq_refl).
Defined.

(** C10.  The reply of two bullets and a summary line parses into the two
    bullets, hyphens kept, and the summary. *)
Theorem bullets_and_summary :
  parse_reply (reply_of_lines
                 [py "- Improve X"; py "- Improve Y"; py "Summary: Do Z"])
  = ([py "- Improve X"; py "- Improve Y"], py "Do Z").
Proof. vm_compute. reflexivity. Qed.

(** ** The call to the endpoint *)

Section Call.

Lemma except_clauses_message (e : exn) :
  exists message,
    nonempty message = true /\ except_clauses e = ([message], []).
Proof.
  destruct e; eexists; (split; [|reflexivity]); reflexivity.
Qed.

Lemma raise_for_status_cases (r : response) :
  ((400 <= status_code r < 600)%Z
   /\ raise_for_status r = Raise (RequestException (http_error_text r)))
  \/ (~ (400 <= status_code r < 600)%Z /\ raise_for_status r = Return tt).
Proof.
  unfold raise_for_status.
  destruct (400 <=? status_code r)%Z eqn:Hlo;
    destruct (status_code r <? 600)%Z eqn:Hhi; cbn [andb];
    [left|right|right|right]; (split; [lia|reflexivity]).
Qed.

Lemma getitem_str_field (key : str) (v : json) :
  match field key v with
  | Some x => getitem_str v key = Return x
  | None => exists e, reading_error e = true /\ getitem_str v key = Raise e
  end.
Proof.
  destruct v as [| | | | |items]; cbn [field getitem_str];
    try (eexists; (split; [|reflexivity]); reflexivity).
  destruct (lookup key items); [reflexivity|].
  eexists; (split; [|reflexivity]); reflexivity.
Qed.

Lemma getitem_int_first (v : json) :
  match first_element v with
  | Some x => getitem_int v 0 = Return x
  | None =>
      (exists c, getitem_int v 0 = Return (JString [c]))
      \/ exists e, reading_error e = true /\ getitem_int v 0 = Raise e
  end.
Proof.
  destruct v as [| | |s|items|items]; cbn [first_element getitem_int];
    try (right; eexists; (split; [|reflexivity]); reflexivity).
  - destruct s as [|c s]; [right; eexists; (split; [|reflexivity]); reflexivity|].
    left. exists c. reflexivity.
  - destruct items as [|x items]; [right; eexists; (split; [|reflexivity]); reflexivity|].
    reflexivity.
Qed.

(** The statements from [result["candidates"][0]] on. *)
Lemma read_reply_path (candidates : json) :
  option_bind (first_element candidates) (fun candidate =>
  option_bind (field (py "content") candidate) (fun content =>
  option_bind (field (py "parts") content) (fun parts =>
  option_bind (first_element parts) (fun part =>
  option_bind (field (py "text") part) (fun text =>
  match text with
  | JString generated_text => Some generated_text
  | _ => None
  end))))) = None ->
  exists e, reading_error e = true /\
    (candidate <- getitem_int candidates 0 ;;
     content <- getitem_str candidate (py "content") ;;
     parts <- getitem_str content (py "parts") ;;
     part <- getitem_int parts 0 ;;
     text <- getitem_str part (py "text") ;;
     generated_text <- as_text text ;;
     Return (parse_reply generated_text))%py = Raise e.
Proof.
  intros Hpath.
  pose proof (getitem_int_first candidates) as H0.
  destruct (first_element candidates) as [candidate|].
  2:{ destruct H0 as [[c ->]|[e [He ->]]]; [|exists e; auto].
      eexists; (split; [|reflexivity]); reflexivity. }
  rewrite H0. cbn [bind option_bind] in *.
  pose proof (getitem_str_field (py "content") candidate) as H1.
  destruct (field (py "content") candidate) as [content|];
    [|destruct H1 as [e [He ->]]; exists e; auto].
  rewrite H1. cbn [bind option_bind] in *.
  pose proof (getitem_str_field (py "parts") content) as H2.
  destruct (field (py "parts") content) as [parts|];
    [|destruct H2 as [e [He ->]]; exists e; auto].
  rewrite H2. cbn [bind option_bind] in *.
  pose proof (getitem_int_first parts) as H3.
  destruct (first_element parts) as [part|].
  2:{ destruct H3 as [[c ->]|[e [He ->]]]; [|exists e; auto].
      eexists; (split; [|reflexivity]); reflexivity. }
  rewrite H3. cbn [bind option_bind] in *.
  pose proof (getitem_str_field (py "text") part) as H4.
  destruct (field (py "text") part) as [text|];
    [|destruct H4 as [e [He ->]]; exists e; auto].
  rewrite H4. cbn [bind option_bind] in *.
  destruct text; try discriminate; eexists; (split; [|reflexivity]); reflexivity.
Qed.

Lemma read_reply_without_text (decoded : json) :
  candidate_text decoded = None ->
  if lacks_candidates decoded
  then read_reply decoded = Return ([no_candidates_message], [])
  else exists e, reading_error e = true /\ read_reply decoded = Raise e.
Proof.
  intros Hpath.
  destruct decoded as [|b|z|s|items|items];
    try (cbn [lacks_candidates truth];
         match goal with
         | |- context [negb ?c] =>
             destruct c eqn:Htruth; cbn [negb];
             [ eexists; (split;
               [|unfold read_reply, has_candidates; cbn [truth];
                 rewrite ?Htruth; reflexivity]); reflexivity
             | unfold read_reply, has_candidates; cbn [truth];
               rewrite ?Htruth; reflexivity ]
         | |- _ => reflexivity
         end).
  unfold candidate_text in Hpath. cbn [field] in Hpath.
  unfold lacks_candidates, read_reply, has_candidates.
  cbn [truth method_get getitem_str].
  destruct (nonempty items); cbn [negb orb]; [|reflexivity].
  destruct (lookup (py "candidates") items) as [candidates|];
    cbn [bind truth]; [|reflexivity].
  cbn [option_bind] in Hpath.
  destruct (truth candidates) eqn:Htruth; cbn [negb bind]; [|reflexivity].
  destruct candidates as [|b|z|s|xs|xs]; cbn [truth] in Htruth;
    try discriminate;
    try (eexists; (split; [|reflexivity]); reflexivity).
  all: cbn [py_len bind].
  all: match goal with
       | |- context [(0 <? Z.of_nat (List.length ?l))%Z] =>
           destruct l; [discriminate|]
       end.
  all: cbn [List.length]; rewrite Nat2Z.inj_succ.
  all: match goal with
       | |- context [(0 <? ?n)%Z] =>
           replace (0 <? n)%Z with true by (symmetry; apply Z.ltb_lt; lia)
       end.
  all: apply read_reply_path; exact Hpath.
Qed.

End Call.

(** C3.  No exception leaves [get_gemini_recommendations]: it returns for
    every outcome of the POST; and for every failure (the POST raises, the
    status is an error status, the body is not JSON, the decoded body has
    no candidates, or reading it raises) it returns a list of one message,
    which is not empty, with the empty summary.  For a failure of the
    transport the message is the one about the connection. *)
Theorem no_exception_escapes
  (post : network) (GEMINI_API_KEY department : str) (ratings : dict) :
  (exists answer,
     get_gemini_recommendations post GEMINI_API_KEY department ratings
     = Return answer)
  /\ (failure post (request_for GEMINI_API_KEY department ratings) ->
      exists message,
        nonempty message = true
        /\ get_gemini_recommendations post GEMINI_API_KEY department ratings
           = Return ([message], []))
  /\ (forall reason,
        post (request_for GEMINI_API_KEY department ratings)
        = Raise (RequestException reason) ->
        get_gemini_recommendations post GEMINI_API_KEY department ratings
        = Return ([py "Error connecting to AI service: " ++ reason
                   ++ py ". Please check your API key and network connection."],
                  [])).
Proof.
  split; [|split].
  - unfold get_gemini_recommendations.
    destruct (try_block _ _ _); eexists; reflexivity.
  - assert (Hraised : forall e,
      try_block post GEMINI_API_KEY (build_prompt department ratings) = Raise e ->
      exists message,
        nonempty message = true
        /\ get_gemini_recommendations post GEMINI_API_KEY department ratings
           = Return ([message], [])).
    { intros e He. unfold get_gemini_recommendations. rewrite He.
      destruct (except_clauses_message e) as [message [Hm ->]].
      exists message. auto. }
    unfold request_for.
    intros [e Hpost | r Hpost Hstatus | r e Hpost Hbody
           | r decoded Hpost Hbody Hnone | r decoded e Hpost Hbody Hread].
    + apply (Hraised e). unfold try_block. rewrite Hpost. reflexivity.
    + destruct (raise_for_status_cases r) as [[_ Hs]|[Hs _]]; [|contradiction].
      eapply Hraised. unfold try_block. rewrite Hpost. cbn [bind].
      rewrite Hs. reflexivity.
    + destruct (raise_for_status_cases r) as [[_ Hs]|[_ Hs]];
        eapply Hraised; unfold try_block; rewrite Hpost; cbn [bind];
        rewrite Hs; cbn [bind]; [|rewrite Hbody]; reflexivity.
    + destruct (raise_for_status_cases r) as [[_ Hs]|[_ Hs]].
      * eapply Hraised. unfold try_block. rewrite Hpost. cbn [bind].
        rewrite Hs. reflexivity.
      * exists no_candidates_message. split; [reflexivity|].
        unfold get_gemini_recommendations, try_block.
        rewrite Hpost. cbn [bind]. rewrite Hs, Hbody. cbn [bind].
        unfold read_reply. rewrite Hnone. reflexivity.
    + destruct (raise_for_status_cases r) as [[_ Hs]|[_ Hs]];
        eapply Hraised; unfold try_block; rewrite Hpost; cbn [bind];
        rewrite Hs; cbn [bind]; [|rewrite Hbody; cbn [bind]; rewrite Hread];
        reflexivity.
  - intros reason Hpost.
    unfold get_gemini_recommendations, try_block, request_for in *.
    rewrite Hpost. reflexivity.
Qed.

Lemma no_exception_escapes_witness :
  exists message,
    nonempty message = true
    /\ get_gemini_recommendations (unreachable (py "Connection refused"))
         (py "key") (py "Sales") []
       = Return ([message], []).
Proof.
  exact (proj1 (proj2 (no_exception_escapes
                         (unreachable (py "Connection refused"))
                         (py "key") (py "Sales") []))
               (@transport_failure _ _ (RequestException (py "Connection refused"))
                  eq_refl)).
Defined.

(** C7, counterexample.  A well-formed body whose one candidate has no
    [content] lacks the text path, and the message returned is that of the
    last [except] clause, not that of the [else] branch. *)
Lemma candidate_without_content_is_unexpected :
  candidate_text
    (JObject [(py "candidates",
               JArray [JObject [(py "finishReason", JString (py "SAFETY"))]])])
  = None
  /\ get_gemini_recommendations
       (answering
          (JObject [(py "candidates",
                     JArray [JObject [(py "finishReason",
                                       JString (py "SAFETY"))]])]))
       (py "key") (py "Sales") []
     = Return ([py "An unexpected error occurred: 'content'"], [])
  /\ py "An unexpected error occurred: 'content'" <> no_candidates_message.
Proof.
  split; [reflexivity|]. split; [vm_compute; reflexivity|].
  vm_compute. discriminate.
Qed.

(** C7, as amended.  For every well-formed JSON response whose body
    lacks the text path [candidates[0].content.parts[0].text], the call
    returns a list of one message with the empty summary.  When the body
    is false as a truth value, or an object whose [candidates] entry is
    absent or false, the message says that no recommendation could be
    generated; otherwise reading the body raises, and the message is that
    of an unexpected error with the text of the exception. *)
Theorem reply_without_candidate_text
  (post : network) (GEMINI_API_KEY department : str) (ratings : dict)
  (r : response) (decoded : json) :
  post (request_for GEMINI_API_KEY department ratings) = Return r ->
  raise_for_status r = Return tt ->
  json_result r = Return decoded ->
  candidate_text decoded = None ->
  if lacks_candidates decoded
  then get_gemini_recommendations post GEMINI_API_KEY department ratings
       = Return ([no_candidates_message], [])
  else exists e,
         reading_error e = true
         /\ read_reply decoded = Raise e
         /\ get_gemini_recommendations post GEMINI_API_KEY department ratings
            = Return ([py "An unexpected error occurred: " ++ exn_str e], []).
Proof.
  unfold request_for. intros Hpost Hstatus Hbody Hpath.
  pose proof (read_reply_without_text decoded Hpath) as Hread.
  unfold get_gemini_recommendations, try_block.
  rewrite Hpost. cbn [bind]. rewrite Hstatus, Hbody. cbn [bind].
  destruct (lacks_candidates decoded).
  - rewrite Hread. reflexivity.
  - destruct Hread as [e [He Hread]]. exists e. rewrite Hread.
    repeat split; auto.
    destruct e; try discriminate; reflexivity.
Qed.

Lemma reply_without_candidate_text_witness :
  get_gemini_recommendations
    (answering (JObject [(py "error", JString (py "quota exceeded"))]))
    (py "key") (py "Sales") []
  = Return ([no_candidates_message], []).
Proof.
  exact (@reply_without_candidate_text
           (answering (JObject [(py "error", JString (py "quota exceeded"))]))
           (py "key") (py "Sales") []
           (Response 200 [] (Return (JObject [(py "error",
                                               JString (py "quota exceeded"))])))
           (JObject [(py "error", JString (py "quota exceeded"))])
           eq_refl eq_refl eq_refl eq_refl).
Defined.

(** ** The questionnaire *)

Section Questionnaire.

Lemma str_eqb_eq (a b : str) : str_eqb a b = true <-> a = b.
Proof.
  revert b. induction a as [|x a IH]; intros [|y b]; cbn [str_eqb];
    try (split; (discriminate || reflexivity)).
  rewrite andb_true_iff, N.eqb_eq, IH. split.
  - intros [-> ->]. reflexivity.
  - intros H. inversion H. auto.
Qed.

Lemma str_eqb_refl (a : str) : str_eqb a a = true.
Proof. apply str_eqb_eq. reflexivity. Qed.

Lemma str_eqb_neq (a b : str) : a <> b -> str_eqb a b = false.
Proof.
  intros Hab. destruct (str_eqb a b) eqn:H; [|reflexivity].
  apply str_eqb_eq in H. contradiction.
Qed.

Lemma str_eqb_sym (a b : str) : str_eqb a b = str_eqb b a.
Proof.
  destruct (str_eqb a b) eqn:Hab; symmetry.
  - apply str_eqb_eq in Hab. subst b. apply str_eqb_refl.
  - destruct (str_eqb b a) eqn:Hba; [|reflexivity].
    apply str_eqb_eq in Hba. subst b. rewrite str_eqb_refl in Hab.
    discriminate.
Qed.

Lemma str_eq_dec (a b : str) : {a = b} + {a <> b}.
Proof.
  destruct (str_eqb a b) eqn:H.
  - left. apply str_eqb_eq, H.
  - right. intros ->. rewrite str_eqb_refl in H. discriminate.
Qed.

(** *** The ratings dict *)

Lemma lookup_dict_set (r : dict) (key q : str) (v : Z) :
  lookup q (dict_set r key v)
  = if str_eqb key q then Some v else lookup q r.
Proof.
  induction r as [|[k x] r IH]; cbn [dict_set lookup]; [reflexivity|].
  destruct (str_eqb k key) eqn:Hk; cbn [lookup].
  - apply str_eqb_eq in Hk. subst k.
    destruct (str_eqb key q); reflexivity.
  - rewrite IH. destruct (str_eqb k q) eqn:Hq; [|reflexivity].
    apply str_eqb_eq in Hq. subst k. rewrite str_eqb_sym, Hk. reflexivity.
Qed.

Lemma keys_dict_set (r : dict) (key q : str) (v : Z) :
  In q (keys (dict_set r key v)) <-> q = key \/ In q (keys r).
Proof.
  unfold keys. induction r as [|[k x] r IH]; cbn [dict_set map In fst].
  - intuition.
  - destruct (str_eqb k key) eqn:Hk; cbn [map In fst].
    + apply str_eqb_eq in Hk. subst k. intuition.
    + rewrite IH. intuition.
Qed.

Lemma lookup_keys (r : dict) (q : str) :
  In q (keys r) <-> exists v, lookup q r = Some v.
Proof.
  unfold keys. induction r as [|[k x] r IH]; cbn [map In fst lookup].
  - split; [contradiction|intros [v H]; discriminate].
  - destruct (str_eqb k q) eqn:Hk.
    + apply str_eqb_eq in Hk. split; eauto.
    + rewrite IH. split; [intros [H|H]; [|exact H]|auto].
      subst k. rewrite str_eqb_refl in Hk. discriminate.
Qed.

(** *** The bank *)

Lemma bank_department (d : str) (qs : list str) :
  lookup d questions = Some qs ->
  nonempty d = true /\ str_eqb d please_select = false
  /\ (0 < Z.of_nat (List.length qs))%Z.
Proof.
  unfold questions. cbn [lookup].
  repeat match goal with
  | |- context [str_eqb ?k d] =>
      let H := fresh "Hk" in
      destruct (str_eqb k d) eqn:H;
      [apply str_eqb_eq in H; subst d; intros Heq; injection Heq as <-;
       repeat split; reflexivity|]
  end.
  discriminate.
Qed.

Lemma departments_bank (d : str) :
  In d departments ->
  d = please_select \/ exists qs, lookup d questions = Some qs.
Proof.
  unfold departments. cbn [In].
  intros [H|[H|[H|[H|[H|[H|[]]]]]]]; subst d; [left; reflexivity|..];
    right; eexists; reflexivity.
Qed.

Lemma py_index_inside {A : Type} (l : list A) (i : Z) :
  (0 <= i < Z.of_nat (List.length l))%Z ->
  exists x, py_index l i = Some x /\ In x l.
Proof.
  intros Hi. unfold py_index.
  replace (0 <=? i)%Z with true by (symmetry; apply Z.leb_le; lia).
  destruct (nth_error l (Z.to_nat i)) as [x|] eqn:Hx.
  - exists x. split; [reflexivity|]. eapply nth_error_In, Hx.
  - apply nth_error_None in Hx. lia.
Qed.

Lemma py_index_of {A : Type} (l : list A) (x : A) :
  In x l ->
  exists i, (0 <= i < Z.of_nat (List.length l))%Z /\ py_index l i = Some x.
Proof.
  intros Hx. apply In_nth_error in Hx as [n Hn].
  assert (Hlt : (n < List.length l)%nat)
    by (apply nth_error_Some; rewrite Hn; discriminate).
  exists (Z.of_nat n). split; [lia|].
  unfold py_index.
  replace (0 <=? Z.of_nat n)%Z with true by (symmetry; apply Z.leb_le; lia).
  rewrite Nat2Z.id. exact Hn.
Qed.

(** *** One run *)

Ltac run_script :=
  cbv [script script_bind eval state modify when ret rerun department_reset
       question_page navigation results_page dict_item list_item].

Lemma script_answering env key w s d qs i q :
  lookup (py "GEMINI_API_KEY") (secrets env) = Some key ->
  selected_department w = d ->
  answering_at s d qs i q ->
  script env w s
  = if (i <? Z.of_nat (List.length qs) - 1)%Z then
      if (0 <? i)%Z && previous_clicked w
      then (set_current_question_index (i - 1) (rated w s q), Halt Rerun)
      else if next_clicked w
      then (set_current_question_index (i + 1) (rated w s q), Halt Rerun)
      else (rated w s q, Go tt)
    else
      if submit_clicked w
      then (submitted_for d (rated w s q), Halt Rerun)
      else (rated w s q, Go tt).
Proof.
  intros Hkey Hsel [Hd Hqs Hopen Hi Hq Hb].
  destruct (bank_department d qs Hqs) as [Hne [Hps _]].
  pose proof (str_eqb_refl d) as Hdd.
  assert (Hle : (Z.of_nat (List.length qs) <=? i)%Z = false)
    by (apply Z.leb_gt; lia).
  run_script.
  rewrite Hkey, Hsel, Hd, Hdd. cbn [negb].
  rewrite Hne, Hps. cbn [negb andb].
  rewrite Hqs, Hopen. cbn [negb].
  rewrite Hi, Hle, Hi, Hq.
  fold (rated w s q).
  assert (Hri : current_question_index (rated w s q) = i) by exact Hi.
  assert (Hrs : submitted (rated w s q) = false) by exact Hopen.
  rewrite !Hri.
  destruct (i <? Z.of_nat (List.length qs) - 1)%Z;
    [destruct (0 <? i)%Z; destruct (previous_clicked w);
     destruct (next_clicked w)
    |destruct (submit_clicked w)];
    cbn [andb]; cbv beta iota; rewrite ?Hri; try reflexivity;
    rewrite Hrs; destruct (last_submitted_department _); reflexivity.
Qed.

Lemma script_reset env key w s :
  lookup (py "GEMINI_API_KEY") (secrets env) = Some key ->
  selected_department w <> active_department s ->
  script env w s
  = (reset_for (selected_department w) s,
     if str_eqb (selected_department w) please_select
     then Go tt else Halt Rerun).
Proof.
  intros Hkey Hsel. apply str_eqb_neq in Hsel.
  run_script. rewrite Hkey, Hsel. cbn [negb].
  destruct (str_eqb (selected_department w) please_select) eqn:Hps;
    cbn [negb andb]; [|reflexivity].
  rewrite andb_false_r. cbv beta iota.
  destruct (last_submitted_department _); reflexivity.
Qed.

Lemma script_idle env key w s :
  lookup (py "GEMINI_API_KEY") (secrets env) = Some key ->
  selected_department w = please_select ->
  active_department s = please_select ->
  submitted s = false ->
  script env w s = (s, Go tt).
Proof.
  intros Hkey Hsel Hact Hopen.
  run_script. rewrite Hkey, Hsel, Hact, str_eqb_refl. cbn [negb].
  rewrite andb_false_r. cbv beta iota. rewrite Hopen.
  destruct (last_submitted_department s); reflexivity.
Qed.

Lemma script_submitted env key w s d qs :
  lookup (py "GEMINI_API_KEY") (secrets env) = Some key ->
  selected_department w = d ->
  active_department s = d ->
  lookup d questions = Some qs ->
  submitted s = true ->
  last_submitted_department s = Some d ->
  script env w s
  = if negb (nonempty (recommendations s)) && negb (nonempty (summary s))
    then match get_gemini_recommendations (post env) key d
                 (last_submitted_ratings s) with
         | Return answer =>
             (set_summary (snd answer) (set_recommendations (fst answer) s),
              Halt Rerun)
         | Raise e => (s, Halt (Uncaught e))
         end
    else (s, Go tt).
Proof.
  intros Hkey Hsel Hact Hqs Hsub Hlast.
  destruct (bank_department d qs Hqs) as [Hne [Hps _]].
  run_script. rewrite Hkey, Hsel, Hact, str_eqb_refl. cbn [negb].
  rewrite Hne, Hps. cbn [negb andb]. rewrite Hqs, Hsub. cbn [negb].
  cbv beta iota. rewrite Hlast, Hsub, Hne. cbn [andb].
  destruct (negb (nonempty (recommendations s)) && negb (nonempty (summary s)));
    [|reflexivity].
  destruct (get_gemini_recommendations _ _ _ _); reflexivity.
Qed.

(** *** The answer of the call is never empty *)

Lemma bind_Return {A B : Type} (r : result A) (k : A -> result B) (b : B) :
  bind r k = Return b -> exists a, r = Return a /\ k a = Return b.
Proof. destruct r as [a|e]; cbn [bind]; [eauto|discriminate]. Qed.

Lemma parse_reply_answers (text : str) :
  nonempty (fst (parse_reply text)) || nonempty (snd (parse_reply text)) = true.
Proof.
  unfold parse_reply.
  destruct (nonempty (ps_recommendations _)) eqn:Hr;
    destruct (nonempty (ps_summary _)) eqn:Hs;
    cbn [negb andb fst snd]; rewrite ?Hr, ?Hs; reflexivity.
Qed.

Lemma read_reply_answers (decoded : json) (answer : list str * str) :
  read_reply decoded = Return answer ->
  nonempty (fst answer) || nonempty (snd answer) = true.
Proof.
  unfold read_reply. intros H.
  apply bind_Return in H as [ok [_ H]].
  destruct ok; [|injection H as <-; reflexivity].
  repeat (apply bind_Return in H as [? [_ H]]).
  injection H as <-. apply parse_reply_answers.
Qed.

Lemma get_gemini_recommendations_answers post key department r :
  exists answer,
    get_gemini_recommendations post key department r = Return answer
    /\ nonempty (fst answer) || nonempty (snd answer) = true.
Proof.
  unfold get_gemini_recommendations.
  destruct (try_block _ _ _) as [answer|e] eqn:Htry.
  - exists answer. split; [reflexivity|].
    unfold try_block in Htry.
    do 3 (apply bind_Return in Htry as [? [_ Htry]]).
    eapply read_reply_answers, Htry.
  - destruct (except_clauses_message e) as [message [Hm ->]].
    eexists. split; [reflexivity|]. cbn [fst nonempty]. reflexivity.
Qed.

(** *** One user action *)

Lemma question_shown_answering s d qs i q :
  answering_at s d qs i q -> question_shown s = Some q.
Proof.
  intros [Hd Hqs Hopen Hi Hq Hb].
  destruct (bank_department d qs Hqs) as [Hne [Hps _]].
  unfold question_shown. rewrite Hd, Hne, Hps, Hopen, Hqs, Hi. cbn [negb andb].
  replace (Z.of_nat (List.length qs) <=? i)%Z with false
    by (symmetry; apply Z.leb_gt; lia).
  exact Hq.
Qed.

Lemma touch_answering w s d qs i q touched :
  answering_at s d qs i q ->
  selected_department w = d ->
  touch w s touched
  = match slider_moved w with Some _ => q :: touched | None => touched end.
Proof.
  intros Hat Hsel. unfold touch.
  rewrite (@question_shown_answering s d qs i q Hat), Hsel, (at_department Hat).
  rewrite str_eqb_refl. reflexivity.
Qed.

Lemma touch_same w s touched :
  selected_department w = active_department s ->
  question_shown s = None ->
  touch w s touched = touched.
Proof.
  intros Hsel Hnone. unfold touch.
  rewrite Hsel, str_eqb_refl, Hnone. cbn [negb].
  destruct (slider_moved w); reflexivity.
Qed.

Lemma touch_changed w s touched :
  selected_department w <> active_department s ->
  touch w s touched = [].
Proof.
  intros Hsel. unfold touch. rewrite (@str_eqb_neq _ _ Hsel). reflexivity.
Qed.

(** What storing the rating of the question on display keeps. *)
Lemma rated_keeps w s d qs i q touched :
  answering_at s d qs i q ->
  match slider_moved w with Some v => (1 <= v <= 5)%Z | None => True end ->
  within qs (ratings s) ->
  on_scale (ratings s) ->
  default_unless touched (ratings s) ->
  within qs (ratings (rated w s q))
  /\ on_scale (ratings (rated w s q))
  /\ default_unless
       (match slider_moved w with Some _ => q :: touched | None => touched end)
       (ratings (rated w s q))
  /\ In q (keys (ratings (rated w s q)))
  /\ (forall q', In q' (keys (ratings s)) ->
                 In q' (keys (ratings (rated w s q)))).
Proof.
  intros Hat Hslider Hwithin Hscale Hdefault.
  destruct (@py_index_inside _ qs i (at_bounds Hat)) as [q0 [Hq0 Hin]].
  rewrite (at_question Hat) in Hq0. injection Hq0 as <-.
  unfold rated. cbn [ratings set_ratings].
  split; [|split; [|split; [|split]]].
  - intros q' Hq'. apply keys_dict_set in Hq' as [->|Hq']; auto.
  - intros q' v'. rewrite lookup_dict_set.
    destruct (str_eqb q q') eqn:Hqq; [|apply Hscale].
    intros Hv. injection Hv as <-.
    destruct (slider_moved w) as [v|]; cbn [st_slider]; [exact Hslider|].
    unfold dict_get. destruct (lookup q (ratings s)) as [v0|] eqn:Hv0; [|lia].
    eapply Hscale, Hv0.
  - intros q' v'. rewrite lookup_dict_set.
    destruct (str_eqb q q') eqn:Hqq.
    + apply str_eqb_eq in Hqq. subst q'. intros Hv Hnot. injection Hv as <-.
      destruct (slider_moved w) as [v|]; cbn [st_slider].
      * exfalso. apply Hnot. left. reflexivity.
      * unfold dict_get.
        destruct (lookup q (ratings s)) as [v0|] eqn:Hv0; [|reflexivity].
        eapply Hdefault; eauto.
    + intros Hv Hnot. eapply Hdefault; [exact Hv|].
      intros Hin'. apply Hnot.
      destruct (slider_moved w); [right|]; exact Hin'.
  - apply keys_dict_set. left. reflexivity.
  - intros q' Hq'. apply keys_dict_set. right. exact Hq'.
Qed.

(** The run [st.rerun()] starts once the index has moved. *)
Lemma script_after_move env key w s d qs i q :
  lookup (py "GEMINI_API_KEY") (secrets env) = Some key ->
  selected_department w = d ->
  answering_at s d qs i q ->
  script env (after_rerun w) s = (rated (after_rerun w) s q, Go tt).
Proof.
  intros Hkey Hsel Hat.
  rewrite (@script_answering env key (after_rerun w) s d qs i q Hkey Hsel Hat).
  cbn [after_rerun previous_clicked next_clicked submit_clicked].
  rewrite andb_false_r.
  destruct (i <? Z.of_nat (List.length qs) - 1)%Z; reflexivity.
Qed.

Lemma answering_rated w s d qs i q :
  answering_at s d qs i q -> answering_at (rated w s q) d qs i q.
Proof. intros [Hd Hqs Hopen Hi Hq Hb]. constructor; assumption. Qed.

Lemma answering_moved s d qs i q i' q' :
  answering_at s d qs i q ->
  (0 <= i' < Z.of_nat (List.length qs))%Z ->
  py_index qs i' = Some q' ->
  answering_at (set_current_question_index i' s) d qs i' q'.
Proof.
  intros [Hd Hqs Hopen Hi Hq Hb] Hb' Hq'. constructor; auto.
Qed.

Lemma negb_both_false (a b : bool) :
  negb a && negb b = false <-> a || b = true.
Proof. destruct a, b; cbn; intuition discriminate. Qed.

(** The runs of a submitted session: the call is made if no answer is
    held, and the page is shown. *)
Lemma runs_submitted env key w s d qs fuel :
  lookup (py "GEMINI_API_KEY") (secrets env) = Some key ->
  selected_department w = d ->
  active_department s = d ->
  lookup d questions = Some qs ->
  submitted s = true ->
  last_submitted_department s = Some d ->
  exists s',
    runs (S (S fuel)) env w s = (s', Shown)
    /\ submitted s' = true
    /\ active_department s' = d
    /\ last_submitted_department s' = Some d
    /\ last_submitted_ratings s' = last_submitted_ratings s
    /\ nonempty (recommendations s') || nonempty (summary s') = true
    /\ ratings s' = ratings s.
Proof.
  intros Hkey Hsel Hact Hqs Hsub Hlast.
  cbn [runs].
  rewrite (@script_submitted env key w s d qs Hkey Hsel Hact Hqs Hsub Hlast).
  destruct (negb (nonempty (recommendations s)) && negb (nonempty (summary s)))
    eqn:Hheld.
  - destruct (get_gemini_recommendations_answers (post env) key d
                (last_submitted_ratings s)) as [answer [-> Hanswer]].
    set (s1 := set_summary (snd answer) (set_recommendations (fst answer) s)).
    assert (Hheld1 : negb (nonempty (recommendations s1))
                     && negb (nonempty (summary s1)) = false)
      by (apply negb_both_false; exact Hanswer).
    rewrite (@script_submitted env key (after_rerun w) s1 d qs Hkey Hsel
               Hact Hqs Hsub Hlast), Hheld1.
    exists s1. repeat split; auto.
  - exists s. repeat split; auto. apply negb_both_false, Hheld.
Qed.

Lemma empty_within (qs : list str) : within qs [].
Proof. intros q []. Qed.

Lemma empty_on_scale : on_scale [].
Proof. intros q v Hv. discriminate Hv. Qed.

Lemma empty_default (touched : list str) : default_unless touched [].
Proof. intros q v Hv. discriminate Hv. Qed.

(** Every user action ends with the page shown, in a coherent session. *)
Lemma interact_coherent env key w s touched :
  lookup (py "GEMINI_API_KEY") (secrets env) = Some key ->
  valid_widgets w ->
  coherent s touched ->
  exists s',
    interact env w s = (s', Shown) /\ coherent s' (touch w s touched).
Proof.
  intros Hkey [Hdep Hslider] Hco.
  destruct (str_eq_dec (selected_department w) (active_department s))
    as [Hsame|Hchange].
  2:{ rewrite (@touch_changed w s touched Hchange).
      unfold interact. cbn [runs].
      rewrite (@script_reset env key w s Hkey Hchange).
      destruct (@departments_bank _ Hdep) as [Hps|[qs Hqs]].
      - rewrite Hps, str_eqb_refl. eexists. split; [reflexivity|].
        apply coherent_idle; reflexivity.
      - destruct (@bank_department _ qs Hqs) as [Hne [Hps Hlen]].
        rewrite Hps.
        destruct (@py_index_inside _ qs 0 ltac:(lia)) as [q0 [Hq0 Hin0]].
        assert (Hat : answering_at
                        (reset_for (selected_department w) s)
                        (selected_department w) qs 0 q0)
          by (constructor; auto; lia).
        rewrite (@script_after_move env key w _ _ qs 0 q0 Hkey eq_refl Hat).
        eexists. split; [reflexivity|].
        destruct (@rated_keeps (after_rerun w) _ _ qs 0 q0 [] Hat I
                    (empty_within qs) empty_on_scale (empty_default []))
          as (Hw1 & Hs1 & Hd1 & Hq1 & _).
        apply (@coherent_answering _ _ qs 0 q0); auto.
        + apply answering_rated, Hat.
        + intros j q' Hj Hq'. assert (j = 0%Z) by lia. subst j.
          rewrite Hq0 in Hq'. injection Hq' as <-. exact Hq1. }
  destruct Hco as [Hact Hopen
                  | qs i q Hat Hvis Hwithin Hscale Hdef
                  | qs Hsub Hqs Hlast Hans Hcov Hwithin Hscale Hdef].
  - (* no department *)
    rewrite touch_same; auto.
    2:{ unfold question_shown. rewrite Hact, str_eqb_refl.
        rewrite andb_false_r. reflexivity. }
    unfold interact. cbn [runs].
    rewrite (@script_idle env key w s Hkey); auto; [|congruence].
    eexists. split; [reflexivity|]. apply coherent_idle; auto.
  - (* a question is on display *)
    set (d := active_department s) in *.
    rewrite (@touch_answering w s d qs i q touched Hat Hsame).
    destruct (@rated_keeps w s d qs i q touched Hat Hslider Hwithin Hscale Hdef)
      as (Hw1 & Hs1 & Hd1 & Hq1 & Hmono1).
    set (touched1 := match slider_moved w with
                     | Some _ => q :: touched
                     | None => touched
                     end) in *.
    pose proof (@answering_rated w s d qs i q Hat) as Hat1.
    assert (Hvis1 : forall j q', (0 <= j <= i)%Z -> py_index qs j = Some q' ->
                                 In q' (keys (ratings (rated w s q))))
      by (intros j q' Hj Hq'; eapply Hmono1, Hvis; eauto).
    pose proof (at_bounds Hat) as Hb.
    assert (Hmove : forall i',
      (0 <= i' < Z.of_nat (List.length qs))%Z -> (i' <= i + 1)%Z ->
      exists s',
        runs 3 env (after_rerun w)
             (set_current_question_index i' (rated w s q)) = (s', Shown)
        /\ coherent s' touched1).
    { intros i' Hb' Hle.
      destruct (@py_index_inside _ qs i' Hb') as [q2 [Hq2 Hin2]].
      pose proof (@answering_moved _ d qs i q i' q2 Hat1 Hb' Hq2) as Hat2.
      cbn [runs].
      rewrite (@script_after_move env key w _ d qs i' q2 Hkey Hsame Hat2).
      eexists. split; [reflexivity|].
      destruct (@rated_keeps (after_rerun w) _ d qs i' q2 touched1 Hat2 I
                  Hw1 Hs1 Hd1) as (Hw2 & Hs2 & Hd2 & Hq2' & Hmono2).
      apply (@coherent_answering _ _ qs i' q2); auto.
      - apply answering_rated. exact Hat2.
      - intros j q' Hj Hq'.
        destruct (Z.eq_dec j i') as [->|Hne].
        + rewrite Hq2 in Hq'. injection Hq' as <-. exact Hq2'.
        + apply Hmono2. apply (Hvis1 j q'); [lia|exact Hq']. }
    assert (Hstay : coherent (rated w s q) touched1)
      by (apply (@coherent_answering _ _ qs i q); auto).
    unfold interact. cbn [runs].
    rewrite (@script_answering env key w s d qs i q Hkey Hsame Hat).
    destruct (i <? Z.of_nat (List.length qs) - 1)%Z eqn:Hlast.
    + apply Z.ltb_lt in Hlast.
      destruct ((0 <? i)%Z && previous_clicked w) eqn:Hprev.
      * apply andb_prop in Hprev as [Hpos _]. apply Z.ltb_lt in Hpos.
        apply Hmove; lia.
      * destruct (next_clicked w); [apply Hmove; lia|].
        eexists. split; [reflexivity|exact Hstay].
    + apply Z.ltb_ge in Hlast.
      destruct (submit_clicked w); [|eexists; split; [reflexivity|exact Hstay]].
      destruct (@runs_submitted env key (after_rerun w)
                  (submitted_for d (rated w s q)) d qs 1 Hkey Hsame
                  (at_department Hat) (at_questions Hat) eq_refl eq_refl)
        as (s' & Hruns & Hsub' & Hact' & Hlast' & Hcopy & Hans' & _).
      exists s'. split; [exact Hruns|].
      apply (@coherent_submitted _ _ qs); rewrite ?Hact', ?Hcopy; auto;
        [exact (at_questions Hat)|].
      intros q' Hq'. destruct (@py_index_of _ qs q' Hq') as [j [Hj Hqj]].
      apply (Hvis1 j q'); [lia|exact Hqj].
  - (* the ratings are submitted *)
    rewrite touch_same; auto.
    2:{ unfold question_shown. rewrite Hsub, andb_false_r. reflexivity. }
    destruct (@runs_submitted env key w s (active_department s) qs 2 Hkey Hsame
                eq_refl Hqs Hsub Hlast)
      as (s' & Hruns & Hsub' & Hact' & Hlast' & Hcopy & Hans' & _).
    exists s'. split; [exact Hruns|].
    apply (@coherent_submitted _ _ qs); rewrite ?Hact', ?Hcopy; auto.
Qed.

(** Before the last question the Submit button is not on the page. *)
Lemma submit_not_offered env key s d qs i q :
  lookup (py "GEMINI_API_KEY") (secrets env) = Some key ->
  answering_at s d qs i q ->
  (i < Z.of_nat (List.length qs) - 1)%Z ->
  interact env (click_submit d) s = (rated (click_submit d) s q, Shown).
Proof.
  intros Hkey Hat Hbefore. unfold interact. cbn [runs].
  rewrite (@script_answering env key (click_submit d) s d qs i q Hkey eq_refl
             Hat).
  replace (i <? Z.of_nat (List.length qs) - 1)%Z with true
    by (symmetry; apply Z.ltb_lt; exact Hbefore).
  cbn [click_submit previous_clicked next_clicked]. rewrite andb_false_r.
  reflexivity.
Qed.

Lemma replay_coherent env key actions s touched :
  lookup (py "GEMINI_API_KEY") (secrets env) = Some key ->
  Forall valid_widgets actions ->
  coherent s touched ->
  exists s' touched',
    replay env actions s touched = (s', touched', Shown)
    /\ coherent s' touched'.
Proof.
  intros Hkey Hvalid. revert s touched.
  induction Hvalid as [|w actions Hw _ IH]; intros s touched Hco.
  - exists s, touched. split; [reflexivity|exact Hco].
  - destruct (@interact_coherent env key w s touched Hkey Hw Hco)
      as [s1 [Hrun Hco1]].
    cbn [replay]. rewrite Hrun. apply IH, Hco1.
Qed.

(** A rating stored without a move of the slider keeps what was there. *)
Lemma rated_still w s q q' v :
  slider_moved w = None ->
  lookup q' (ratings s) = Some v ->
  lookup q' (ratings (rated w s q)) = Some v.
Proof.
  intros Hnone Hv. unfold rated. cbn [ratings set_ratings].
  rewrite lookup_dict_set, Hnone. cbn [st_slider].
  destruct (str_eqb q q') eqn:Hqq; [|exact Hv].
  apply str_eqb_eq in Hqq. subst q'. unfold dict_get. rewrite Hv. reflexivity.
Qed.

(** A rating stored leaves the other questions alone. *)
Lemma rated_other w s q q' :
  q' <> q ->
  lookup q' (ratings (rated w s q)) = lookup q' (ratings s).
Proof.
  intros Hne. unfold rated. cbn [ratings set_ratings].
  rewrite lookup_dict_set, str_eqb_neq; [reflexivity|congruence].
Qed.

(** An action on the question on display: the page is shown again, and
    what the slider stored is still there. *)
Lemma interact_answering env key w s d qs i q :
  lookup (py "GEMINI_API_KEY") (secrets env) = Some key ->
  selected_department w = d ->
  answering_at s d qs i q ->
  exists s',
    interact env w s = (s', Shown)
    /\ forall q' v, lookup q' (ratings (rated w s q)) = Some v ->
                    lookup q' (ratings s') = Some v.
Proof.
  intros Hkey Hsel Hat.
  pose proof (@answering_rated w s d qs i q Hat) as Hat1.
  pose proof (at_bounds Hat) as Hb.
  assert (Hmove : forall i',
    (0 <= i' < Z.of_nat (List.length qs))%Z ->
    exists s',
      runs 3 env (after_rerun w)
           (set_current_question_index i' (rated w s q)) = (s', Shown)
      /\ forall q' v, lookup q' (ratings (rated w s q)) = Some v ->
                      lookup q' (ratings s') = Some v).
  { intros i' Hb'.
    destruct (@py_index_inside _ qs i' Hb') as [q2 [Hq2 _]].
    pose proof (@answering_moved _ d qs i q i' q2 Hat1 Hb' Hq2) as Hat2.
    cbn [runs].
    rewrite (@script_after_move env key w _ d qs i' q2 Hkey Hsel Hat2).
    eexists. split; [reflexivity|].
    intros q' v Hv. apply rated_still; [reflexivity|exact Hv]. }
  unfold interact. cbn [runs].
  rewrite (@script_answering env key w s d qs i q Hkey Hsel Hat).
  destruct (i <? Z.of_nat (List.length qs) - 1)%Z eqn:Hlast.
  - apply Z.ltb_lt in Hlast.
    destruct ((0 <? i)%Z && previous_clicked w) eqn:Hprev.
    + apply andb_prop in Hprev as [Hpos _]. apply Z.ltb_lt in Hpos.
      apply Hmove; lia.
    + destruct (next_clicked w); [apply Hmove; lia|].
      eexists. split; [reflexivity|auto].
  - destruct (submit_clicked w); [|eexists; split; [reflexivity|auto]].
    destruct (@runs_submitted env key (after_rerun w)
                (submitted_for d (rated w s q)) d qs 1 Hkey Hsel
                (at_department Hat) (at_questions Hat) eq_refl eq_refl)
      as (s' & Hruns & _ & _ & _ & _ & _ & Hsame).
    exists s'. split; [exact Hruns|].
    intros q' v Hv. rewrite Hsame. exact Hv.
Qed.
End Questionnaire.

Section Claims.

Variable env : environment.
Variable key : str.
Hypothesis key_held : lookup (py "GEMINI_API_KEY") (secrets env) = Some key.

(** C2.  Whatever the user did, once the ratings are submitted the copy
    taken at submission has exactly the questions of the active
    department as its keys, every value is an integer of 1..5, and every
    question whose slider the user did not move has the default 3. *)
Theorem submitted_ratings_complete
  (actions : list widgets) (s : session) (touched : list str)
  (outcome : settled) :
  Forall valid_widgets actions ->
  replay env actions fresh_session [] = (s, touched, outcome) ->
  submitted s = true ->
  outcome = Shown
  /\ exists qs,
       lookup (active_department s) questions = Some qs
       /\ (forall q, In q (keys (last_submitted_ratings s)) <-> In q qs)
       /\ (forall q v, lookup q (last_submitted_ratings s) = Some v ->
                       (1 <= v <= 5)%Z)
       /\ (forall q, In q qs -> ~ In q touched ->
                     lookup q (last_submitted_ratings s) = Some 3%Z).
Proof.
  intros Hvalid Hreplay Hsubmitted.
  destruct (replay_coherent env key actions fresh_session [] key_held Hvalid
              (coherent_idle fresh_session [] eq_refl eq_refl))
    as (s' & touched' & Hshown & Hco).
  rewrite Hreplay in Hshown. injection Hshown as <- <- ->.
  split; [reflexivity|].
  destruct Hco as [_ Hopen | qs i q Hat _ _ _ _
                  | qs _ Hqs _ _ Hcovers Hwithin Hscale Hdefault].
  - congruence.
  - pose proof (at_open Hat). congruence.
  - exists qs. split; [exact Hqs|]. split; [|split].
    + intros q. split; [apply Hwithin|apply Hcovers].
    + exact Hscale.
    + intros q Hq Huntouched.
      destruct (proj1 (lookup_keys _ q) (Hcovers q Hq)) as [v Hv].
      rewrite Hv. f_equal. exact (Hdefault q v Hv Huntouched).
Qed.

(** C8.  From every state, the run that finds another department selected
    sets the question index to 0, empties the ratings, clears the
    submitted flag and drops the recommendations and the summary held.
    (When the department is a real one the run ends in [st.rerun()], and
    the page is shown with the first question at its default 3.) *)
Theorem department_change_resets (w : widgets) (s : session) :
  selected_department w <> active_department s ->
  current_question_index (fst (script env w s)) = 0%Z
  /\ ratings (fst (script env w s)) = []
  /\ submitted (fst (script env w s)) = false
  /\ recommendations (fst (script env w s)) = []
  /\ summary (fst (script env w s)) = []
  /\ active_department (fst (script env w s)) = selected_department w
  /\ (In (selected_department w) departments ->
      exists s',
        interact env w s = (s', Shown)
        /\ current_question_index s' = 0%Z
        /\ submitted s' = false
        /\ recommendations s' = []
        /\ summary s' = []
        /\ ratings s'
           = match lookup (selected_department w) questions with
             | Some (first_question :: _) => [(first_question, 3%Z)]
             | _ => []
             end).
Proof.
  intros Hchange.
  rewrite (script_reset env key w s key_held Hchange). cbn [fst].
  repeat (split; [reflexivity|]).
  intros Hdep. unfold interact. cbn [runs].
  rewrite (script_reset env key w s key_held Hchange).
  destruct (departments_bank _ Hdep) as [Hps|[qs Hqs]].
  - rewrite Hps, str_eqb_refl. eexists. repeat (split; [reflexivity|]).
    reflexivity.
  - destruct (bank_department _ qs Hqs) as [_ [Hps Hlen]].
    rewrite Hps, Hqs.
    destruct qs as [|q0 qs]; [cbn in Hlen; lia|].
    assert (Hat : answering_at (reset_for (selected_department w) s)
                    (selected_department w) (q0 :: qs) 0 q0)
      by (constructor; auto; lia).
    rewrite (script_after_move env key w _ _ _ 0 q0 key_held eq_refl Hat).
    eexists. repeat (split; [reflexivity|]). reflexivity.
Qed.

(** C9, as amended.  From question [i], if Previous is offered at the next
    question (it is not at the last one), Next and then Previous show
    question [i] again, and every rating recorded before is unchanged.
    More generally no action on the question on display alters the rating
    recorded for another question of the department. *)
Theorem next_then_previous
  (s : session) (d : str) (qs : list str) (i : Z) (q : str) :
  answering_at s d qs i q ->
  ((i + 1 < Z.of_nat (List.length qs) - 1)%Z ->
   exists s1 s2,
     interact env (click_next d) s = (s1, Shown)
     /\ interact env (click_previous d) s1 = (s2, Shown)
     /\ current_question_index s1 = (i + 1)%Z
     /\ current_question_index s2 = i
     /\ forall q' v, lookup q' (ratings s) = Some v ->
                     lookup q' (ratings s2) = Some v)
  /\ (forall w q' v,
        selected_department w = d ->
        q' <> q ->
        lookup q' (ratings s) = Some v ->
        lookup q' (ratings (fst (interact env w s))) = Some v).
Proof.
  intros Hat. pose proof (at_bounds Hat) as Hb. split.
  - intros Hroom.
    destruct (py_index_inside qs (i + 1) ltac:(lia)) as [q1 [Hq1 _]].
    set (r1 := rated (click_next d) s q).
    set (s1 := rated (after_rerun (click_next d))
                 (set_current_question_index (i + 1) r1) q1).
    assert (Hat1 : answering_at s1 d qs (i + 1) q1).
    { apply answering_rated.
      apply (answering_moved r1 d qs i q); [|lia|exact Hq1].
      apply answering_rated, Hat. }
    set (r2 := rated (click_previous d) s1 q1).
    set (s2 := rated (after_rerun (click_previous d))
                 (set_current_question_index (i + 1 - 1) r2) q).
    assert (Hq : py_index qs (i + 1 - 1) = Some q)
      by (replace (i + 1 - 1)%Z with i by lia; exact (at_question Hat)).
    exists s1, s2. split; [|split; [|split; [|split]]].
    + unfold interact. cbn [runs].
      rewrite (script_answering env key (click_next d) s d qs i q key_held
                 eq_refl Hat).
      replace (i <? Z.of_nat (List.length qs) - 1)%Z with true
        by (symmetry; apply Z.ltb_lt; lia).
      cbn [click_next previous_clicked next_clicked]. rewrite andb_false_r.
      rewrite (script_after_move env key (click_next d) _ d qs (i + 1) q1
                 key_held eq_refl).
      * reflexivity.
      * apply (answering_moved r1 d qs i q); [|lia|exact Hq1].
        apply answering_rated, Hat.
    + unfold interact. cbn [runs].
      rewrite (script_answering env key (click_previous d) s1 d qs (i + 1) q1
                 key_held eq_refl Hat1).
      replace (i + 1 <? Z.of_nat (List.length qs) - 1)%Z with true
        by (symmetry; apply Z.ltb_lt; lia).
      replace (0 <? i + 1)%Z with true by (symmetry; apply Z.ltb_lt; lia).
      cbn [click_previous previous_clicked andb].
      rewrite (script_after_move env key (click_previous d) _ d qs
                 (i + 1 - 1) q key_held eq_refl).
      * reflexivity.
      * apply (answering_moved r2 d qs (i + 1) q1); [|lia|exact Hq].
        apply answering_rated, Hat1.
    + reflexivity.
    + cbn. lia.
    + intros q' v Hv. repeat (apply rated_still; [reflexivity|]). exact Hv.
  - intros w q' v Hsel Hother Hv.
    destruct (interact_answering env key w s d qs i q key_held Hsel Hat)
      as [s' [-> Hkept]].
    apply Hkept. rewrite rated_other; assumption.
Qed.

End Claims.

Lemma sales_actions_valid : Forall valid_widgets sales_actions.
Proof.
  unfold sales_actions. cbn [repeat app].
  repeat (apply Forall_cons;
          [split; [right; left; reflexivity|cbn; try lia; exact I]|]).
  apply Forall_nil.
Qed.

Lemma submitted_ratings_complete_witness :
  snd sales_outcome = Shown
  /\ exists qs,
       lookup (active_department (fst (fst sales_outcome))) questions = Some qs
       /\ (forall q,
             In q (keys (last_submitted_ratings (fst (fst sales_outcome))))
             <-> In q qs)
       /\ (forall q v,
             lookup q (last_submitted_ratings (fst (fst sales_outcome)))
             = Some v -> (1 <= v <= 5)%Z)
       /\ (forall q, In q qs -> ~ In q (snd (fst sales_outcome)) ->
                     lookup q (last_submitted_ratings (fst (fst sales_outcome)))
                     = Some 3%Z).
Proof.
  apply (submitted_ratings_complete offline (py "key") eq_refl sales_actions).
  - exact sales_actions_valid.
  - unfold sales_outcome.
    destruct (replay offline sales_actions fresh_session []) as [[s touched] o].
    reflexivity.
  - vm_compute. reflexivity.
Defined.

(** The scenario of a Sales session with every slider left alone: ten
    ratings are submitted, all of them 3. *)
Example sales_defaults :
  map snd
    (last_submitted_ratings
       (fst (fst (replay offline
                    (choose (py "Sales")
                       :: repeat (click_next (py "Sales")) 9
                       ++ [click_submit (py "Sales")])
                    fresh_session []))))
  = repeat 3%Z 10.
Proof. vm_compute. reflexivity. Qed.

Lemma department_change_resets_witness :
  current_question_index
    (fst (script offline (choose (py "Marketing")) answered_session)) = 0%Z
  /\ ratings (fst (script offline (choose (py "Marketing")) answered_session))
     = []
  /\ submitted (fst (script offline (choose (py "Marketing")) answered_session))
     = false
  /\ recommendations
       (fst (script offline (choose (py "Marketing")) answered_session)) = []
  /\ summary (fst (script offline (choose (py "Marketing")) answered_session))
     = []
  /\ active_department
       (fst (script offline (choose (py "Marketing")) answered_session))
     = py "Marketing"
  /\ (In (py "Marketing") departments ->
      exists s',
        interact offline (choose (py "Marketing")) answered_session
        = (s', Shown)
        /\ current_question_index s' = 0%Z
        /\ submitted s' = false
        /\ recommendations s' = []
        /\ summary s' = []
        /\ ratings s'
           = match lookup (py "Marketing") questions with
             | Some (first_question :: _) => [(first_question, 3%Z)]
             | _ => []
             end).
Proof.
  apply (department_change_resets offline (py "key") eq_refl
           (choose (py "Marketing")) answered_session).
  vm_compute. discriminate.
Defined.

(** C9, counterexample.  At the question before the last one of Sales,
    Next shows the last question, where Previous is not offered: the
    session stays at the last question. *)
Lemma previous_not_offered_at_last_question :
  current_question_index (session_at (py "Sales") 8) = 8%Z
  /\ (8 < Z.of_nat (List.length sales_questions) - 1)%Z
  /\ ~ next_then_previous_returns offline (py "Sales")
         (session_at (py "Sales") 8).
Proof.
  split; [vm_compute; reflexivity|]. split; [vm_compute; reflexivity|].
  unfold next_then_previous_returns. vm_compute. discriminate.
Qed.

Lemma sales_first_question :
  answering_at (session_at (py "Sales") 0) (py "Sales") sales_questions 0
    (nth 0 sales_questions []).
Proof.
  constructor; try (vm_compute; reflexivity).
  vm_compute. split; [discriminate|reflexivity].
Qed.

Lemma next_then_previous_witness :
  exists s1 s2,
    interact offline (click_next (py "Sales")) (session_at (py "Sales") 0)
    = (s1, Shown)
    /\ interact offline (click_previous (py "Sales")) s1 = (s2, Shown)
    /\ current_question_index s1 = 1%Z
    /\ current_question_index s2 = 0%Z
    /\ forall q' v,
         lookup q' (ratings (session_at (py "Sales") 0)) = Some v ->
         lookup q' (ratings s2) = Some v.
Proof.
  refine (proj1 (next_then_previous offline (py "key") eq_refl
                   (session_at (py "Sales") 0) (py "Sales") sales_questions 0
                   (nth 0 sales_questions []) sales_first_question) _).
  vm_compute. reflexivity.
Defined.

(** ** The key *)

(** C6, counterexample.  Without the key the questionnaire cannot be
    used: choosing a department does not get a question on display. *)
Lemma questionnaire_needs_the_key : ~ questionnaire_usable keyless.
Proof.
  intros [s [Hshown _]]. vm_compute in Hshown. discriminate.
Qed.

(** With the key it can, even without a network. *)
Lemma questionnaire_usable_offline : questionnaire_usable offline.
Proof.
  eexists. split; [vm_compute; reflexivity|]. vm_compute. discriminate.
Qed.

(** C6, as amended.  If the key is absent from the secrets, every run of
    the script stops at its first statement with the exception of the
    lookup, whatever the widgets hold and whatever the network would
    answer: no call is made, the session state is left as it was, and
    neither the recommendations nor the questionnaire are reached. *)
Theorem missing_key_stops_every_run (held : list (str * str)) :
  lookup (py "GEMINI_API_KEY") held = None ->
  exists e,
    forall (post : network) (w : widgets) (s : session),
      script (Environment held post) w s = (s, Halt (Uncaught e))
      /\ interact (Environment held post) w s = (s, Failed e).
Proof.
  intros Hmissing. eexists. intros post w s.
  assert (Hrun : script (Environment held post) w s
                 = (s, Halt (Uncaught
                                (KeyError (quoted (py "GEMINI_API_KEY")))))).
  { unfold script, script_bind, eval, dict_item. cbn [secrets].
    rewrite Hmissing. reflexivity. }
  split; [exact Hrun|].
  unfold interact. cbn [runs]. rewrite Hrun. reflexivity.
Qed.

Lemma missing_key_stops_every_run_witness :
  exists e,
    forall (post : network) (w : widgets) (s : session),
      script (Environment [] post) w s = (s, Halt (Uncaught e))
      /\ interact (Environment [] post) w s = (s, Failed e).
Proof.
  exact (missing_key_stops_every_run [] eq_refl).
Defined.

(** * Further properties *)

(** ** The reply parser, further *)

Section MoreParser.

(** *** Stripping *)

Lemma lstrip_clean (s : str) :
  match lstrip s with
  | c :: _ => isspace c = false
  | [] => True
  end.
Proof.
  induction s as [|c s IH]; cbn [lstrip]; [exact I|].
  destruct (isspace c) eqn:Hc; [exact IH|exact Hc].
Qed.

Lemma lstrip_fixed (s : str) :
  match s with c :: _ => isspace c = false | [] => True end ->
  lstrip s = s.
Proof.
  destruct s as [|c s]; [reflexivity|]. cbn [lstrip]. intros ->. reflexivity.
Qed.

Lemma lstrip_suffix (s : str) : exists spaces, s = spaces ++ lstrip s.
Proof.
  induction s as [|c s [spaces IH]]; [exists []; reflexivity|].
  cbn [lstrip]. destruct (isspace c).
  - exists (c :: spaces). cbn [app]. f_equal. exact IH.
  - exists []. reflexivity.
Qed.

Lemma rstrip_clean (s : str) : ends_clean (rstrip s).
Proof.
  unfold ends_clean, rstrip. rewrite rev_involutive. apply lstrip_clean.
Qed.

Lemma rstrip_fixed (s : str) : ends_clean s -> rstrip s = s.
Proof.
  unfold ends_clean, rstrip. intros H.
  rewrite (lstrip_fixed (rev s) H). apply rev_involutive.
Qed.

Lemma ends_clean_suffix (front s : str) :
  ends_clean (front ++ s) -> ends_clean s.
Proof.
  unfold ends_clean. rewrite rev_app_distr.
  destruct (rev s) as [|c r]; [intros _; exact I|]. cbn [app]. auto.
Qed.

Lemma strip_strip (s : str) : strip (strip s) = strip s.
Proof.
  unfold strip.
  assert (Hclean : ends_clean (lstrip (rstrip s))).
  { destruct (lstrip_suffix (rstrip s)) as [spaces Hs].
    apply (ends_clean_suffix spaces). rewrite <- Hs. apply rstrip_clean. }
  rewrite (rstrip_fixed _ Hclean).
  apply lstrip_fixed, lstrip_clean.
Qed.

Lemma parse_line_trimmed (st : parse_state) (line : str) :
  trimmed (ps_summary st) -> trimmed (ps_summary (parse_line st line)).
Proof.
  intros Hst. unfold parse_line.
  repeat match goal with |- context [if ?c then _ else _] => destruct c end;
    try exact Hst.
  apply strip_strip.
Qed.

Lemma parse_lines_trimmed (lines : list str) (st : parse_state) :
  trimmed (ps_summary st) -> trimmed (ps_summary (parse_lines st lines)).
Proof.
  revert st. induction lines as [|line lines IH]; intros st Hst; [exact Hst|].
  apply IH, parse_line_trimmed, Hst.
Qed.

(** X2.  The summary the parser returns neither starts nor ends with
    white space: stripping it again changes nothing. *)
Theorem summary_is_trimmed (text : str) :
  strip (snd (parse_reply text)) = snd (parse_reply text).
Proof.
  unfold parse_reply.
  destruct (negb _ && negb _); cbn [snd].
  - vm_compute. reflexivity.
  - apply parse_lines_trimmed. reflexivity.
Qed.

(** *** Removing the markers *)

Lemma remove_bold_unmarked (s : str) : has_bold s = false -> remove_bold s = s.
Proof.
  induction s as [|a|a b r IHr IHbr] using str_pair_ind; try reflexivity.
  rewrite has_bold_step, remove_bold_step. intros H.
  apply orb_false_iff in H as [Hpair Hrest].
  rewrite Hpair, (IHbr Hrest). reflexivity.
Qed.

(** X3.  Removing the markers leaves a text without [**] as it is, and
    removing them twice is removing them once. *)
Theorem remove_bold_settles (s : str) :
  (has_bold s = false -> remove_bold s = s)
  /\ remove_bold (remove_bold s) = remove_bold s.
Proof.
  split; [apply remove_bold_unmarked|].
  apply remove_bold_unmarked, remove_bold_clean.
Qed.

(** *** Lines *)

Lemma split_nonempty (sep : char) (s : str) : split sep s <> [].
Proof.
  induction s as [|c r IH]; cbn [split]; [discriminate|].
  destruct (c =? sep)%N; [discriminate|].
  destruct (split sep r); discriminate.
Qed.

Lemma join_cons_char (sep c : char) (field : str) (fields : list str) :
  join sep ((c :: field) :: fields) = c :: join sep (field :: fields).
Proof. destruct fields; reflexivity. Qed.

Lemma join_split (sep : char) (s : str) : join sep (split sep s) = s.
Proof.
  induction s as [|c r IH]; [reflexivity|]. cbn [split].
  destruct (c =? sep)%N eqn:Hc.
  - apply N.eqb_eq in Hc. subst c.
    destruct (split sep r) as [|field fields] eqn:Hr;
      [exfalso; exact (split_nonempty sep r Hr)|].
    cbn [join app]. cbn [join] in IH. rewrite IH. reflexivity.
  - destruct (split sep r) as [|field fields] eqn:Hr;
      [exfalso; exact (split_nonempty sep r Hr)|].
    rewrite join_cons_char, IH. reflexivity.
Qed.

Lemma split_field (sep : char) (field : str) :
  Forall (fun c => c <> sep) field -> split sep field = [field].
Proof.
  induction 1 as [|c field Hc _ IH]; [reflexivity|].
  cbn [split]. apply N.eqb_neq in Hc. rewrite Hc, IH. reflexivity.
Qed.

Lemma split_field_then (sep : char) (field rest : str) :
  Forall (fun c => c <> sep) field ->
  split sep (field ++ sep :: rest) = field :: split sep rest.
Proof.
  induction 1 as [|c field Hc _ IH]; cbn [app split].
  - rewrite N.eqb_refl. reflexivity.
  - apply N.eqb_neq in Hc. rewrite Hc, IH. reflexivity.
Qed.

Lemma split_join (sep : char) (fields : list str) :
  fields <> [] ->
  Forall (Forall (fun c => c <> sep)) fields ->
  split sep (join sep fields) = fields.
Proof.
  intros Hne Hall. induction Hall as [|field fields Hfield Hall IH];
    [contradiction|].
  destruct fields as [|next fields].
  - cbn [join]. apply split_field, Hfield.
  - change (join sep (field :: next :: fields))
      with (field ++ sep :: join sep (next :: fields)).
    rewrite (split_field_then sep field _ Hfield), IH by discriminate.
    reflexivity.
Qed.

(** X4.  The lines the parser reads, joined by newlines, are the reply;
    and a reply made of lines that hold no newline is read as these
    lines. *)
Theorem lines_round_trip (text : str) (lines : list str) :
  join char_newline (split char_newline text) = text
  /\ (lines <> [] ->
      Forall (Forall (fun c => c <> char_newline)) lines ->
      split char_newline (reply_of_lines lines) = lines).
Proof.
  split; [apply join_split|apply split_join].
Qed.

(** *** The expected format *)

Lemma filter_none (lines : list str) :
  forallb (fun line => negb (is_summary_line line)) lines = true ->
  filter is_summary_line lines = [].
Proof.
  induction lines as [|line lines IH]; [reflexivity|].
  cbn [forallb filter]. intros H. apply andb_prop in H as [Hline Hrest].
  apply negb_true_iff in Hline. rewrite Hline. apply IH, Hrest.
Qed.

(** X1.  For a reply in the format the prompt asks for, lines none of
    which starts with [Summary:], then one that does, then lines none of
    which does, the parser returns the stripped non-blank lines before
    the summary line, markers removed, in their order, and the stripped
    text after the marker; unless both are empty, when the fallback is
    taken. *)
Theorem bullets_then_summary
  (text : str) (before : list str) (summary_line : str) (after : list str) :
  split char_newline text = before ++ summary_line :: after ->
  forallb (fun line => negb (is_summary_line line)) before = true ->
  is_summary_line summary_line = true ->
  forallb (fun line => negb (is_summary_line line)) after = true ->
  parse_reply text
  = if negb (nonempty (collected before))
       && negb (nonempty (summary_of summary_line))
    then ([remove_bold (strip text)], no_summary_placeholder)
    else (collected before, summary_of summary_line).
Proof.
  intros Hsplit Hbefore Hline Hafter.
  unfold parse_reply. rewrite Hsplit, parse_lines_app.
  rewrite (parse_lines_open before parse_start eq_refl Hbefore).
  cbn [parse_lines fold_left].
  rewrite (parse_line_summary _ summary_line Hline).
  fold (parse_lines
          (ParseState
             (ps_recommendations
                (ParseState (ps_recommendations parse_start ++ collected before)
                   (ps_summary parse_start) false))
             (summary_of summary_line) true) after).
  rewrite parse_lines_closed by reflexivity.
  rewrite (filter_none after Hafter).
  reflexivity.
Qed.
End MoreParser.

(** ** The call, further *)

Section MoreCall.

Variable post : network.
Variables GEMINI_API_KEY department : str.
Variable ratings : dict.

Lemma lookup_nonempty {V : Type} (key : str) (items : list (str * V)) (v : V) :
  lookup key items = Some v -> nonempty items = true.
Proof. destruct items; [discriminate|reflexivity]. Qed.

Lemma read_reply_text (decoded : json) (generated_text : str) :
  candidate_text decoded = Some generated_text ->
  read_reply decoded = Return (parse_reply generated_text).
Proof.
  unfold candidate_text. intros Hpath.
  destruct decoded as [| | | | |items]; try discriminate.
  cbn [field] in Hpath.
  destruct (lookup (py "candidates") items) as [candidates|] eqn:Hc;
    [|discriminate].
  cbn [option_bind] in Hpath.
  destruct candidates as [| | | |[|candidate rest]|]; try discriminate.
  cbn [first_element option_bind] in Hpath.
  unfold read_reply, has_candidates.
  cbn [truth method_get getitem_str].
  rewrite (lookup_nonempty _ _ _ Hc), Hc. cbn [bind truth nonempty py_len].
  cbn [List.length]. rewrite Nat2Z.inj_succ.
  replace (0 <? Z.succ (Z.of_nat (List.length rest)))%Z with true
    by (symmetry; apply Z.ltb_lt; lia).
  pose proof (getitem_int_first (JArray (candidate :: rest))) as H0.
  cbn [first_element] in H0. rewrite H0. cbn [bind].
  pose proof (getitem_str_field (py "content") candidate) as H1.
  destruct (field (py "content") candidate) as [content|]; [|discriminate].
  rewrite H1. cbn [bind option_bind] in *.
  pose proof (getitem_str_field (py "parts") content) as H2.
  destruct (field (py "parts") content) as [parts|]; [|discriminate].
  rewrite H2. cbn [bind option_bind] in *.
  pose proof (getitem_int_first parts) as H3.
  destruct (first_element parts) as [part|]; [|discriminate].
  rewrite H3. cbn [bind option_bind] in *.
  pose proof (getitem_str_field (py "text") part) as H4.
  destruct (field (py "text") part) as [text|]; [|discriminate].
  rewrite H4. cbn [bind option_bind] in *.
  destruct text; try discriminate. injection Hpath as ->. reflexivity.
Qed.

(** X5.  When the status is not an error status and the decoded body
    holds a text at [candidates[0].content.parts[0].text], the call
    returns what the parser makes of this text. *)
Theorem reply_with_candidate_text
  (r : response) (decoded : json) (generated_text : str) :
  post (request_for GEMINI_API_KEY department ratings) = Return r ->
  ~ (400 <= status_code r < 600)%Z ->
  json_result r = Return decoded ->
  candidate_text decoded = Some generated_text ->
  get_gemini_recommendations post GEMINI_API_KEY department ratings
  = Return (parse_reply generated_text).
Proof.
  unfold request_for. intros Hpost Hstatus Hbody Hpath.
  unfold get_gemini_recommendations, try_block. rewrite Hpost. cbn [bind].
  destruct (raise_for_status_cases r) as [[Hs _]|[_ ->]]; [contradiction|].
  cbn [bind]. rewrite Hbody. cbn [bind].
  rewrite (read_reply_text decoded generated_text Hpath). reflexivity.
Qed.

(** X6.  A response with a status of 400..599 is reported as a failure of
    the connection, with the text of the [HTTPError], whatever its body
    holds. *)
Theorem error_status_is_connection_error (r : response) :
  post (request_for GEMINI_API_KEY department ratings) = Return r ->
  (400 <= status_code r < 600)%Z ->
  get_gemini_recommendations post GEMINI_API_KEY department ratings
  = Return ([py "Error connecting to AI service: " ++ http_error_text r
             ++ py ". Please check your API key and network connection."],
            []).
Proof.
  unfold request_for. intros Hpost Hstatus.
  unfold get_gemini_recommendations, try_block. rewrite Hpost. cbn [bind].
  destruct (raise_for_status_cases r) as [[_ ->]|[Hs _]]; [|contradiction].
  reflexivity.
Qed.

(** X7.  When [response.json()] raises, the first [except] clause that
    matches the class of the exception gives the message: that of the
    connection for a [RequestException], that of the parse failure for a
    [JSONDecodeError], the one about an unexpected error otherwise. *)
Theorem undecodable_body (r : response) (e : exn) :
  post (request_for GEMINI_API_KEY department ratings) = Return r ->
  ~ (400 <= status_code r < 600)%Z ->
  json_result r = Raise e ->
  get_gemini_recommendations post GEMINI_API_KEY department ratings
  = Return
      (match e with
       | RequestException reason =>
           [py "Error connecting to AI service: " ++ reason
            ++ py ". Please check your API key and network connection."]
       | JSONDecodeError _ =>
           [py "Error: Could not parse AI response. The response was not valid JSON."]
       | _ => [py "An unexpected error occurred: " ++ exn_str e]
       end, []).
Proof.
  unfold request_for. intros Hpost Hstatus Hbody.
  unfold get_gemini_recommendations, try_block. rewrite Hpost. cbn [bind].
  destruct (raise_for_status_cases r) as [[Hs _]|[_ ->]]; [contradiction|].
  cbn [bind]. rewrite Hbody. destruct e; reflexivity.
Qed.

(** X8.  Whatever the network does, the call returns, and never with
    both an empty list and an empty summary: the results page, which
    calls while it holds neither, does not call again for ever. *)
Theorem answer_never_empty :
  exists recommendations summary,
    get_gemini_recommendations post GEMINI_API_KEY department ratings
    = Return (recommendations, summary)
    /\ (recommendations <> [] \/ summary <> []).
Proof.
  destruct (get_gemini_recommendations_answers post GEMINI_API_KEY department
              ratings) as [[recs summ] [Hget Hfull]].
  exists recs, summ. split; [exact Hget|]. cbn [fst snd] in Hfull.
  destruct recs; [|left; discriminate].
  destruct summ; [discriminate|right; discriminate].
Qed.

End MoreCall.

(** ** The order of the ratings *)

Section Order.

Lemma distinct_NoDup (l : list str) : distinct l = true -> NoDup l.
Proof.
  induction l as [|x l IH]; cbn [distinct]; intros H; [constructor|].
  apply andb_prop in H as [Hx Hl]. constructor; [|apply IH, Hl].
  intros Hin. apply negb_true_iff in Hx.
  assert (Hex : existsb (str_eqb x) l = true)
    by (apply existsb_exists; exists x; split; [exact Hin|apply str_eqb_refl]).
  congruence.
Qed.

Lemma bank_distinct (d : str) (qs : list str) :
  lookup d questions = Some qs -> NoDup qs /\ List.length qs = 10%nat.
Proof.
  unfold questions. cbn [lookup].
  repeat match goal with
  | |- context [str_eqb ?k d] =>
      destruct (str_eqb k d);
      [intros Heq; injection Heq as <-;
       split; [apply distinct_NoDup; vm_compute; reflexivity|reflexivity]|]
  end.
  discriminate.
Qed.

Lemma firstn_has {A : Type} (l : list A) (n k : nat) (x : A) :
  nth_error l n = Some x -> (n < k)%nat -> In x (firstn k l).
Proof.
  revert n k. induction l as [|y l IH]; intros [|n] [|k] Hx Hlt;
    try discriminate; try lia; cbn [firstn nth_error In] in *.
  - left. congruence.
  - right. apply (IH n k Hx). lia.
Qed.

Lemma firstn_grow {A : Type} (l : list A) (k : nat) (x : A) :
  nth_error l k = Some x -> firstn k l ++ [x] = firstn (S k) l.
Proof.
  revert k. induction l as [|y l IH]; intros [|k] Hx; try discriminate;
    cbn [firstn nth_error app] in *.
  - congruence.
  - f_equal. apply IH, Hx.
Qed.

Lemma firstn_lacks {A : Type} (l : list A) (k : nat) (x : A) :
  NoDup l -> nth_error l k = Some x -> ~ In x (firstn k l).
Proof.
  intros Hnd. revert k. induction Hnd as [|y l Hy _ IH]; intros [|k] Hx;
    try discriminate; cbn [firstn nth_error In] in *; [tauto|].
  intros [->|Hin]; [|exact (IH k Hx Hin)].
  apply Hy. eapply nth_error_In, Hx.
Qed.

Lemma py_index_nth {A : Type} (l : list A) (i : Z) :
  (0 <= i)%Z -> py_index l i = nth_error l (Z.to_nat i).
Proof.
  intros Hi. unfold py_index.
  replace (0 <=? i)%Z with true by (symmetry; apply Z.leb_le; exact Hi).
  reflexivity.
Qed.

Lemma keys_rated_present w s q :
  In q (keys (ratings s)) -> keys (ratings (rated w s q)) = keys (ratings s).
Proof.
  unfold rated. cbn [ratings set_ratings].
  generalize (st_slider 1 5 (dict_get (ratings s) q 3) (slider_moved w)).
  intros v. unfold keys. induction (ratings s) as [|[k x] r IH];
    cbn [map fst In dict_set]; [contradiction|].
  intros [->|Hin].
  - rewrite str_eqb_refl. reflexivity.
  - destruct (str_eqb k q); [reflexivity|]. cbn [map fst]. f_equal. auto.
Qed.

Lemma keys_rated_absent w s q :
  ~ In q (keys (ratings s)) ->
  keys (ratings (rated w s q)) = keys (ratings s) ++ [q].
Proof.
  unfold rated. cbn [ratings set_ratings].
  generalize (st_slider 1 5 (dict_get (ratings s) q 3) (slider_moved w)).
  intros v. unfold keys. induction (ratings s) as [|[k x] r IH];
    cbn [map fst In dict_set app]; [reflexivity|].
  intros Hnot. rewrite str_eqb_neq by tauto.
  cbn [map fst]. f_equal. apply IH. tauto.
Qed.

(** The runs after the Submit button: one call, whose answer is kept. *)
Lemma runs_submit_call env key w s d qs fuel :
  lookup (py "GEMINI_API_KEY") (secrets env) = Some key ->
  selected_department w = d ->
  active_department s = d ->
  lookup d questions = Some qs ->
  submitted s = true ->
  last_submitted_department s = Some d ->
  recommendations s = [] ->
  summary s = [] ->
  exists answer,
    get_gemini_recommendations (post env) key d (last_submitted_ratings s)
    = Return answer
    /\ runs (S (S fuel)) env w s
       = (set_summary (snd answer) (set_recommendations (fst answer) s), Shown).
Proof.
  intros Hkey Hsel Hact Hqs Hsub Hlast Hrecs Hsumm.
  destruct (get_gemini_recommendations_answers (post env) key d
              (last_submitted_ratings s)) as [answer [Hget Hfull]].
  exists answer. split; [exact Hget|].
  cbn [runs].
  rewrite (script_submitted env key w s d qs Hkey Hsel Hact Hqs Hsub Hlast).
  rewrite Hrecs, Hsumm, Hget. cbn [nonempty negb andb].
  set (s1 := set_summary (snd answer) (set_recommendations (fst answer) s)).
  rewrite (script_submitted env key (after_rerun w) s1 d qs Hkey Hsel
             Hact Hqs Hsub Hlast).
  replace (negb (nonempty (recommendations s1)) && negb (nonempty (summary s1)))
    with false by (symmetry; apply negb_both_false; exact Hfull).
  reflexivity.
Qed.

(** A run on a submitted session that holds its answer changes nothing. *)
Lemma runs_submitted_held env key w s d qs fuel :
  lookup (py "GEMINI_API_KEY") (secrets env) = Some key ->
  selected_department w = d ->
  active_department s = d ->
  lookup d questions = Some qs ->
  submitted s = true ->
  last_submitted_department s = Some d ->
  get_gemini_recommendations (post env) key d (last_submitted_ratings s)
  = Return (recommendations s, summary s) ->
  runs (S fuel) env w s = (s, Shown).
Proof.
  intros Hkey Hsel Hact Hqs Hsub Hlast Hheld.
  destruct (get_gemini_recommendations_answers (post env) key d
              (last_submitted_ratings s)) as [answer [Hget Hfull]].
  rewrite Hheld in Hget. injection Hget as <-. cbn [fst snd] in Hfull.
  cbn [runs].
  rewrite (script_submitted env key w s d qs Hkey Hsel Hact Hqs Hsub Hlast).
  replace (negb (nonempty (recommendations s)) && negb (nonempty (summary s)))
    with false by (symmetry; apply negb_both_false; exact Hfull).
  reflexivity.
Qed.

Lemma interact_orderly env key w s :
  lookup (py "GEMINI_API_KEY") (secrets env) = Some key ->
  In (selected_department w) departments ->
  orderly env key s ->
  exists s', interact env w s = (s', Shown) /\ orderly env key s'.
Proof.
  intros Hkey Hdep Hord.
  destruct (str_eq_dec (selected_department w) (active_department s))
    as [Hsame|Hchange].
  2:{ unfold interact. cbn [runs].
      rewrite (script_reset env key w s Hkey Hchange).
      destruct (departments_bank _ Hdep) as [Hps|[qs Hqs]].
      - rewrite Hps, str_eqb_refl. eexists. split; [reflexivity|].
        apply orderly_idle; reflexivity.
      - destruct (bank_department _ qs Hqs) as [_ [Hps Hlen]].
        rewrite Hps.
        destruct qs as [|q0 qs]; [cbn in Hlen; lia|].
        assert (Hat : answering_at (reset_for (selected_department w) s)
                        (selected_department w) (q0 :: qs) 0 q0)
          by (constructor; auto; lia).
        rewrite (script_after_move env key w _ _ _ 0 q0 Hkey eq_refl Hat).
        eexists. split; [reflexivity|].
        apply (orderly_answering _ _ _ (q0 :: qs) 1); auto.
        + cbn. lia.
        + cbn. lia. }
  destruct Hord as [Hact Hopen Hempty
                   | qs k Hqs Hopen Hpos Hk Hkeys
                   | qs Hqs Hsub Hlast Hkeys Hcopy Hdept Hheld].
  - unfold interact. cbn [runs].
    rewrite (script_idle env key w s Hkey); auto; [|congruence].
    eexists. split; [reflexivity|]. apply orderly_idle; auto.
  - set (d := active_department s) in *.
    set (i := current_question_index s) in *.
    destruct (bank_distinct d qs Hqs) as [Hnd _].
    assert (Hb : (0 <= i < Z.of_nat (List.length qs))%Z) by lia.
    destruct (py_index_inside qs i Hb) as [q [Hq _]].
    assert (Hat : answering_at s d qs i q) by (constructor; auto).
    pose proof (answering_rated w s d qs i q Hat) as Hat1.
    assert (Hq' : nth_error qs (Z.to_nat i) = Some q)
      by (rewrite <- py_index_nth by lia; exact Hq).
    assert (Hkeys1 : keys (ratings (rated w s q)) = firstn k qs).
    { rewrite keys_rated_present; [exact Hkeys|].
      rewrite Hkeys. apply (firstn_has qs (Z.to_nat i)); [exact Hq'|lia]. }
    assert (Hstay : orderly env key (rated w s q))
      by (apply (orderly_answering _ _ _ qs k); auto).
    assert (Hmove : forall i',
      (0 <= i' < Z.of_nat (List.length qs))%Z -> (Z.to_nat i' <= k)%nat ->
      exists s',
        runs 3 env (after_rerun w)
             (set_current_question_index i' (rated w s q)) = (s', Shown)
        /\ orderly env key s').
    { intros i' Hb' Hle.
      destruct (py_index_inside qs i' Hb') as [q2 [Hq2 _]].
      pose proof (answering_moved _ d qs i q i' q2 Hat1 Hb' Hq2) as Hat2.
      assert (Hq2' : nth_error qs (Z.to_nat i') = Some q2)
        by (rewrite <- py_index_nth by lia; exact Hq2).
      cbn [runs].
      rewrite (script_after_move env key w _ d qs i' q2 Hkey Hsame Hat2).
      eexists. split; [reflexivity|].
      destruct (Nat.eq_dec (Z.to_nat i') k) as [Hnew|Hold].
      - apply (orderly_answering _ _ _ qs (S k)); auto.
        + cbn. lia.
        + cbn [current_question_index rated set_ratings
                set_current_question_index]. lia.
        + rewrite keys_rated_absent.
          * cbn [ratings set_current_question_index]. rewrite Hkeys1.
            apply firstn_grow. rewrite <- Hnew. exact Hq2'.
          * cbn [ratings set_current_question_index]. rewrite Hkeys1.
            apply firstn_lacks; [exact Hnd|]. rewrite <- Hnew. exact Hq2'.
      - apply (orderly_answering _ _ _ qs k); auto.
        + cbn. lia.
        + cbn [current_question_index rated set_ratings
                set_current_question_index]. lia.
        + rewrite keys_rated_present.
          * cbn [ratings set_current_question_index]. exact Hkeys1.
          * cbn [ratings set_current_question_index]. rewrite Hkeys1.
            apply (firstn_has qs (Z.to_nat i')); [exact Hq2'|lia]. }
    unfold interact. cbn [runs].
    rewrite (script_answering env key w s d qs i q Hkey Hsame Hat).
    destruct (i <? Z.of_nat (List.length qs) - 1)%Z eqn:Hlast.
    + apply Z.ltb_lt in Hlast.
      destruct ((0 <? i)%Z && previous_clicked w) eqn:Hprev.
      * apply andb_prop in Hprev as [Hgt _]. apply Z.ltb_lt in Hgt.
        apply Hmove; lia.
      * destruct (next_clicked w); [apply Hmove; lia|].
        eexists. split; [reflexivity|exact Hstay].
    + apply Z.ltb_ge in Hlast.
      destruct (submit_clicked w); [|eexists; split; [reflexivity|exact Hstay]].
      destruct (runs_submit_call env key (after_rerun w)
                  (submitted_for d (rated w s q)) d qs 1 Hkey Hsame
                  (at_department Hat) Hqs eq_refl eq_refl eq_refl eq_refl)
        as [answer [Hget Hruns]].
      eexists. split; [exact Hruns|].
      assert (Hall : k = List.length qs) by lia.
      apply (orderly_submitted _ _ _ qs); auto.
      * cbn. fold i. lia.
      * cbn [ratings set_summary set_recommendations submitted_for
              set_last_submitted_ratings set_last_submitted_department
              set_submitted].
        rewrite Hkeys1, Hall. apply firstn_all.
      * destruct answer as [recs summ]. exact Hget.
  - unfold interact.
    rewrite (runs_submitted_held env key w s (active_department s) qs 3 Hkey
               Hsame eq_refl Hqs Hsub Hdept Hheld).
    eexists. split; [reflexivity|].
    apply (orderly_submitted _ _ _ qs); auto.
Qed.
End Order.

Section MoreClaims.

Variable env : environment.
Variable key : str.
Hypothesis key_held : lookup (py "GEMINI_API_KEY") (secrets env) = Some key.

Lemma replay_orderly (actions : list widgets) (s : session)
                     (touched : list str) :
  Forall valid_widgets actions ->
  orderly env key s ->
  exists s' touched',
    replay env actions s touched = (s', touched', Shown)
    /\ orderly env key s'.
Proof.
  intros Hvalid. revert s touched.
  induction Hvalid as [|w actions [Hw _] _ IH]; intros s touched Hord.
  - exists s, touched. split; [reflexivity|exact Hord].
  - destruct (interact_orderly env key w s key_held Hw Hord) as [s1 [Hrun H1]].
    cbn [replay]. rewrite Hrun. apply IH, H1.
Qed.

Lemma fresh_orderly : orderly env key fresh_session.
Proof. apply orderly_idle; reflexivity. Qed.

(** X9.  After every sequence of user actions the page is shown (no run
    fails, and the reruns end), and either no department is chosen and no
    rating is held, or the question index is within the questions of the
    department and the keys of the ratings are the first questions of the
    department, in their order, the question on display among them. *)
Theorem index_and_keys_in_order
  (actions : list widgets) (s : session) (touched : list str)
  (outcome : settled) :
  Forall valid_widgets actions ->
  replay env actions fresh_session [] = (s, touched, outcome) ->
  outcome = Shown
  /\ ((active_department s = please_select /\ ratings s = [])
      \/ exists qs k,
           lookup (active_department s) questions = Some qs
           /\ (0 <= current_question_index s < Z.of_nat (List.length qs))%Z
           /\ (Z.to_nat (current_question_index s) < k)%nat
           /\ keys (ratings s) = firstn k qs).
Proof.
  intros Hvalid Hreplay.
  destruct (replay_orderly actions fresh_session [] Hvalid fresh_orderly)
    as (s' & touched' & Hshown & Hord).
  rewrite Hreplay in Hshown. injection Hshown as <- <- ->.
  split; [reflexivity|].
  destruct Hord as [Hact _ Hempty
                   | qs k Hqs _ Hpos Hk Hkeys
                   | qs Hqs _ Hlast Hkeys _ _ _].
  - left. auto.
  - right. exists qs, k. repeat split; auto; lia.
  - right. exists qs, (List.length qs).
    destruct (bank_department _ qs Hqs) as [_ [_ Hlen]].
    rewrite Hlast, Hkeys. repeat split; auto; try lia.
    symmetry. apply firstn_all.
Qed.

(** X10.  Once the ratings are submitted, the copy taken lists the
    questions of the department in their order, it is equal to the
    ratings the session still holds, and the recommendations and the
    summary held are those the call returns for this copy. *)
Theorem snapshot_in_question_order
  (actions : list widgets) (s : session) (touched : list str)
  (outcome : settled) :
  Forall valid_widgets actions ->
  replay env actions fresh_session [] = (s, touched, outcome) ->
  submitted s = true ->
  exists qs,
    lookup (active_department s) questions = Some qs
    /\ keys (last_submitted_ratings s) = qs
    /\ last_submitted_ratings s = ratings s
    /\ get_gemini_recommendations (post env) key (active_department s)
         (last_submitted_ratings s)
       = Return (recommendations s, summary s).
Proof.
  intros Hvalid Hreplay Hsub.
  destruct (replay_orderly actions fresh_session [] Hvalid fresh_orderly)
    as (s' & touched' & Hshown & Hord).
  rewrite Hreplay in Hshown. injection Hshown as <- <- ->.
  destruct Hord as [_ Hopen _
                   | qs k _ Hopen _ _ _
                   | qs Hqs _ _ Hkeys Hcopy _ Hheld]; try congruence.
  exists qs. split; [exact Hqs|]. split; [rewrite Hcopy; exact Hkeys|].
  split; [exact Hcopy|exact Hheld].
Qed.


(** X12.  Moving the slider of the question on display to [v] stores [v]
    for this question, so that the slider is given [v] in the next run,
    and changes nothing else; the page is shown again at once. *)
Theorem slide_records
  (s : session) (d : str) (qs : list str) (i : Z) (q : str) (v : Z) :
  answering_at s d qs i q ->
  interact env (slide d v) s
  = (set_ratings (dict_set (ratings s) q v) s, Shown)
  /\ dict_get (dict_set (ratings s) q v) q 3 = v
  /\ forall q', q' <> q ->
       lookup q' (dict_set (ratings s) q v) = lookup q' (ratings s).
Proof.
  intros Hat. split; [|split].
  - unfold interact. cbn [runs].
    rewrite (script_answering env key (slide d v) s d qs i q key_held eq_refl
               Hat).
    cbn [slide previous_clicked next_clicked submit_clicked].
    rewrite andb_false_r.
    destruct (i <? Z.of_nat (List.length qs) - 1)%Z; reflexivity.
  - unfold dict_get. rewrite lookup_dict_set, str_eqb_refl. reflexivity.
  - intros q' Hne. rewrite lookup_dict_set, str_eqb_neq; [reflexivity|].
    congruence.
Qed.

(** X13.  From a question that is neither the first nor the last,
    Previous and then Next show the question again, and every rating
    recorded before is unchanged. *)
Theorem previous_then_next
  (s : session) (d : str) (qs : list str) (i : Z) (q : str) :
  answering_at s d qs i q ->
  (0 < i < Z.of_nat (List.length qs) - 1)%Z ->
  exists s1 s2,
    interact env (click_previous d) s = (s1, Shown)
    /\ interact env (click_next d) s1 = (s2, Shown)
    /\ current_question_index s1 = (i - 1)%Z
    /\ current_question_index s2 = i
    /\ forall q' v, lookup q' (ratings s) = Some v ->
                    lookup q' (ratings s2) = Some v.
Proof.
  intros Hat Hroom. pose proof (at_bounds Hat) as Hb.
  destruct (py_index_inside qs (i - 1) ltac:(lia)) as [q1 [Hq1 _]].
  set (r1 := rated (click_previous d) s q).
  set (s1 := rated (after_rerun (click_previous d))
               (set_current_question_index (i - 1) r1) q1).
  assert (Hmoved : answering_at (set_current_question_index (i - 1) r1)
                     d qs (i - 1) q1).
  { apply (answering_moved r1 d qs i q); [|lia|exact Hq1].
    apply answering_rated, Hat. }
  assert (Hat1 : answering_at s1 d qs (i - 1) q1)
    by (apply answering_rated, Hmoved).
  set (r2 := rated (click_next d) s1 q1).
  set (s2 := rated (after_rerun (click_next d))
               (set_current_question_index (i - 1 + 1) r2) q).
  assert (Hq : py_index qs (i - 1 + 1) = Some q)
    by (replace (i - 1 + 1)%Z with i by lia; exact (at_question Hat)).
  exists s1, s2. split; [|split; [|split; [|split]]].
  - unfold interact. cbn [runs].
    rewrite (script_answering env key (click_previous d) s d qs i q key_held
               eq_refl Hat).
    replace (i <? Z.of_nat (List.length qs) - 1)%Z with true
      by (symmetry; apply Z.ltb_lt; lia).
    replace (0 <? i)%Z with true by (symmetry; apply Z.ltb_lt; lia).
    cbn [click_previous previous_clicked andb].
    rewrite (script_after_move env key (click_previous d) _ d qs (i - 1) q1
               key_held eq_refl); [reflexivity|exact Hmoved].
  - unfold interact. cbn [runs].
    rewrite (script_answering env key (click_next d) s1 d qs (i - 1) q1
               key_held eq_refl Hat1).
    replace (i - 1 <? Z.of_nat (List.length qs) - 1)%Z with true
      by (symmetry; apply Z.ltb_lt; lia).
    cbn [click_next previous_clicked next_clicked]. rewrite andb_false_r.
    rewrite (script_after_move env key (click_next d) _ d qs (i - 1 + 1) q
               key_held eq_refl).
    + reflexivity.
    + apply (answering_moved r2 d qs (i - 1) q1); [|lia|exact Hq].
      apply answering_rated, Hat1.
  - reflexivity.
  - cbn. lia.
  - intros q' v Hv. repeat (apply rated_still; [reflexivity|]). exact Hv.
Qed.

End MoreClaims.

(** ** The prompt *)

Section Prompt.

Lemma decimal_rating (v1 v2 : Z) (rest1 rest2 : str) :
  (1 <= v1 <= 5)%Z -> (1 <= v2 <= 5)%Z ->
  decimal v1 ++ rest1 = decimal v2 ++ rest2 ->
  v1 = v2 /\ rest1 = rest2.
Proof.
  intros H1 H2.
  assert (C1 : (v1 = 1 \/ v1 = 2 \/ v1 = 3 \/ v1 = 4 \/ v1 = 5)%Z) by lia.
  assert (C2 : (v2 = 1 \/ v2 = 2 \/ v2 = 3 \/ v2 = 4 \/ v2 = 5)%Z) by lia.
  destruct C1 as [->|[->|[->|[->| ->]]]];
    destruct C2 as [->|[->|[->|[->| ->]]]];
    vm_compute; intros H; inversion H; split; reflexivity.
Qed.

Lemma rating_lines_injective (r1 r2 : dict) :
  keys r1 = keys r2 ->
  Forall (fun item => (1 <= snd item <= 5)%Z) r1 ->
  Forall (fun item => (1 <= snd item <= 5)%Z) r2 ->
  List.concat (map prompt_rating r1) = List.concat (map prompt_rating r2) ->
  r1 = r2.
Proof.
  revert r2. induction r1 as [|[q1 v1] r1 IH]; intros [|[q2 v2] r2] Hkeys H1 H2;
    try discriminate; [reflexivity|].
  cbn [keys map fst] in Hkeys. injection Hkeys as -> Hkeys.
  inversion H1 as [|? ? Hv1 H1']. inversion H2 as [|? ? Hv2 H2']. subst.
  cbn [map List.concat]. unfold prompt_rating at 1 3. cbn [fst snd].
  rewrite <- !app_assoc. intros H.
  apply app_inv_head in H. apply app_inv_head in H. apply app_inv_head in H.
  destruct (decimal_rating v1 v2 _ _ Hv1 Hv2 H) as [-> Hrest].
  apply app_inv_head in Hrest. apply app_inv_head in Hrest.
  f_equal. apply IH; auto.
Qed.

(** X14.  The prompt loses no rating: two sets of ratings on the scale
    for the same questions that give the same prompt are the same. *)
Theorem prompt_determines_ratings (department : str) (r1 r2 : dict) :
  keys r1 = keys r2 ->
  Forall (fun item => (1 <= snd item <= 5)%Z) r1 ->
  Forall (fun item => (1 <= snd item <= 5)%Z) r2 ->
  build_prompt department r1 = build_prompt department r2 ->
  r1 = r2.
Proof.
  intros Hkeys H1 H2 Hprompt. unfold build_prompt in Hprompt.
  apply app_inv_head in Hprompt. apply app_inv_tail in Hprompt.
  apply rating_lines_injective; assumption.
Qed.
End Prompt.

(** ** Instances *)

Lemma bullets_then_summary_witness :
  parse_reply (reply_of_lines
                 [py "- **Plan** breaks"; py ""; py "Summary: Rest more";
                  py ""])
  = ([py "- Plan breaks"], py "Rest more").
Proof.
  exact (bullets_then_summary
           (reply_of_lines
              [py "- **Plan** breaks"; py ""; py "Summary: Rest more"; py ""])
           [py "- **Plan** breaks"; py ""] (py "Summary: Rest more") [py ""]
           eq_refl eq_refl eq_refl eq_refl).
Defined.

Lemma reply_with_candidate_text_witness :
  get_gemini_recommendations (answering sample_body) (py "key") (py "Sales") []
  = Return (parse_reply (py "Summary: Rest.")).
Proof.
  apply (reply_with_candidate_text (answering sample_body) (py "key")
           (py "Sales") [] (Response 200 [] (Return sample_body)) sample_body);
    [reflexivity|cbn; lia|reflexivity|reflexivity].
Defined.

Lemma error_status_is_connection_error_witness :
  get_gemini_recommendations overloaded (py "key") (py "Sales") []
  = Return ([py "Error connecting to AI service: " ++ py "503 Server Error"
             ++ py ". Please check your API key and network connection."],
            []).
Proof.
  apply (error_status_is_connection_error overloaded (py "key") (py "Sales") []
           (Response 503 (py "503 Server Error") (Return JNull)));
    [reflexivity|cbn; lia].
Defined.

Lemma undecodable_body_witness :
  get_gemini_recommendations garbled (py "key") (py "Sales") []
  = Return ([py "Error: Could not parse AI response. The response was not valid JSON."],
            []).
Proof.
  apply (undecodable_body garbled (py "key") (py "Sales") []
           (Response 200 [] (Raise (JSONDecodeError (py "Expecting value"))))
           (JSONDecodeError (py "Expecting value")));
    [reflexivity|cbn; lia|reflexivity].
Defined.

Lemma sales_outcome_eq :
  replay offline sales_actions fresh_session []
  = (fst (fst sales_outcome), snd (fst sales_outcome), snd sales_outcome).
Proof.
  unfold sales_outcome.
  destruct (replay offline sales_actions fresh_session []) as [[s touched] o].
  reflexivity.
Qed.

Lemma sales_outcome_submitted : submitted (fst (fst sales_outcome)) = true.
Proof. vm_compute. reflexivity. Qed.

Lemma index_and_keys_in_order_witness :
  snd sales_outcome = Shown
  /\ ((active_department (fst (fst sales_outcome)) = please_select
       /\ ratings (fst (fst sales_outcome)) = [])
      \/ exists qs k,
           lookup (active_department (fst (fst sales_outcome))) questions
           = Some qs
           /\ (0 <= current_question_index (fst (fst sales_outcome))
               < Z.of_nat (List.length qs))%Z
           /\ (Z.to_nat (current_question_index (fst (fst sales_outcome))) < k)%nat
           /\ keys (ratings (fst (fst sales_outcome))) = firstn k qs).
Proof.
  exact (index_and_keys_in_order offline (py "key") eq_refl sales_actions
           (fst (fst sales_outcome)) (snd (fst sales_outcome))
           (snd sales_outcome) sales_actions_valid sales_outcome_eq).
Defined.

Lemma snapshot_in_question_order_witness :
  exists qs,
    lookup (active_department (fst (fst sales_outcome))) questions = Some qs
    /\ keys (last_submitted_ratings (fst (fst sales_outcome))) = qs
    /\ last_submitted_ratings (fst (fst sales_outcome))
       = ratings (fst (fst sales_outcome))
    /\ get_gemini_recommendations (post offline) (py "key")
         (active_department (fst (fst sales_outcome)))
         (last_submitted_ratings (fst (fst sales_outcome)))
       = Return (recommendations (fst (fst sales_outcome)),
                 summary (fst (fst sales_outcome))).
Proof.
  exact (snapshot_in_question_order offline (py "key") eq_refl sales_actions
           (fst (fst sales_outcome)) (snd (fst sales_outcome))
           (snd sales_outcome) sales_actions_valid sales_outcome_eq
           sales_outcome_submitted).
Defined.



Lemma slide_records_witness :
  interact offline (slide (py "Sales") 5) (session_at (py "Sales") 0)
  = (set_ratings
       (dict_set (ratings (session_at (py "Sales") 0))
          (nth 0 sales_questions []) 5)
       (session_at (py "Sales") 0), Shown)
  /\ dict_get
       (dict_set (ratings (session_at (py "Sales") 0))
          (nth 0 sales_questions []) 5)
       (nth 0 sales_questions []) 3 = 5%Z
  /\ forall q', q' <> nth 0 sales_questions [] ->
       lookup q' (dict_set (ratings (session_at (py "Sales") 0))
                    (nth 0 sales_questions []) 5)
       = lookup q' (ratings (session_at (py "Sales") 0)).
Proof.
  exact (slide_records offline (py "key") eq_refl (session_at (py "Sales") 0)
           (py "Sales") sales_questions 0 (nth 0 sales_questions []) 5
           sales_first_question).
Defined.

Lemma sales_second_question :
  answering_at (session_at (py "Sales") 1) (py "Sales") sales_questions 1
    (nth 1 sales_questions []).
Proof.
  constructor; try (vm_compute; reflexivity).
  vm_compute. split; [discriminate|reflexivity].
Qed.

Lemma previous_then_next_witness :
  exists s1 s2,
    interact offline (click_previous (py "Sales")) (session_at (py "Sales") 1)
    = (s1, Shown)
    /\ interact offline (click_next (py "Sales")) s1 = (s2, Shown)
    /\ current_question_index s1 = 0%Z
    /\ current_question_index s2 = 1%Z
    /\ forall q' v,
         lookup q' (ratings (session_at (py "Sales") 1)) = Some v ->
         lookup q' (ratings s2) = Some v.
Proof.
  refine (previous_then_next offline (py "key") eq_refl
            (session_at (py "Sales") 1) (py "Sales") sales_questions 1
            (nth 1 sales_questions []) sales_second_question _).
  vm_compute. split; reflexivity.
Defined.

Lemma prompt_determines_ratings_witness :
  [(py "How manageable is the workload?", 2%Z)]
  = [(py "How manageable is the workload?", 2%Z)].
Proof.
  apply (prompt_determines_ratings (py "Sales")
           [(py "How manageable is the workload?", 2%Z)]
           [(py "How manageable is the workload?", 2%Z)]);
    [reflexivity| | |reflexivity];
    (constructor; [cbn; lia|constructor]).
Defined.
